(** * B3RB position controller (app/b3rb/src/position.c)

    A shallow embedding of the trajectory-tracking worker of the B3RB rover
    and of its shell command handler, followed by the properties of the
    controller that its specification states.

    Conventions of the embedding.
    - C [double] values are elements of a type [D] equipped with the
      operations the file uses ([DoubleOps]).  The instance [binary64]
      interprets them by IEEE-754 binary64 arithmetic, which is what the
      target computes; general theorems hold for every interpretation.
    - [uint64_t] values are integers of [Z]; subtraction wraps modulo 2^64
      ([u64_sub]).
    - The functions generated by CasADi ([bezier6_rover], [se2_error]), the
      C library's [atan2] and the protobuf enumerator of the tracking mode
      are outside position.c; they are the fields of [Externals].
    - Every function returns the context it leaves together with the list of
      events it produced: log lines, shell output, calls of the generated
      functions, publications on the [cmd_vel] topic, thread creations.
    - The shell thread and the workers interleave at the granularity of one
      handler call and one loop iteration ([step]); within an iteration the
      running flag keeps the value it had when the iteration began. *)

From Stdlib Require Import ZArith List String Bool Lia Floats.
From Equations Require Import Equations.
Import ListNotations.
Open Scope string_scope.
Open Scope list_scope.
Open Scope Z_scope.

Set Implicit Arguments.

(** ** Arithmetic of C doubles *)

Class DoubleOps (D : Type) : Type := {
  d_of_int : Z -> D;          (* conversion of an integer value to double *)
  d_to_uint64 : D -> Z;       (* conversion of a double to uint64_t *)
  d_add : D -> D -> D;
  d_mul : D -> D -> D;
  d_div : D -> D -> D;
  d_1e_9 : D                  (* the literal 1e-9 *)
}.

(** The line feed that ends a format string. *)
Definition newline : string := String (Ascii.ascii_of_nat 10) EmptyString.

Definition two64 : Z := 2 ^ 64.

(** [a - b] on [uint64_t]. *)
Definition u64_sub (a b : Z) : Z := (a - b) mod two64.

(** *** The binary64 interpretation *)

Definition float_of_Z (n : Z) : float :=
  SF2Prim (binary_normalize prec emax n 0 false).

(** Truncation toward zero; the value is reduced modulo 2^64 where C leaves
    the conversion undefined. *)
Definition float_to_uint64 (f : float) : Z :=
  match Prim2SF f with
  | S754_finite s m e =>
      let a := if 0 <=? e then Z.pos m * 2 ^ e else Z.pos m / 2 ^ (- e) in
      (if s then - a else a) mod two64
  | _ => 0
  end.

#[export] Instance binary64 : DoubleOps float := {
  d_of_int := float_of_Z;
  d_to_uint64 := float_to_uint64;
  d_add := PrimFloat.add;
  d_mul := PrimFloat.mul;
  d_div := PrimFloat.div;
  d_1e_9 := 0x1.12e0be826d695p-30%float
}.

(** ** Messages *)

Module Vector3.
Record t (D : Type) : Type := mk { x : D; y : D; z : D }.
End Vector3.

Module Quaternion.
Record t (D : Type) : Type := mk { x : D; y : D; z : D; w : D }.
End Quaternion.

Module Twist.
Record t (D : Type) : Type := mk {
  has_linear : bool;
  linear : Vector3.t D;
  has_angular : bool;
  angular : Vector3.t D
}.
End Twist.

Module Time.
(* int64 sec, int32 nanosec *)
Record t : Type := mk { sec : Z; nanosec : Z }.
End Time.

Module Status.
Record t : Type := mk { mode : Z }.
End Status.

Module Pose.
Record t (D : Type) : Type := mk {
  position : Vector3.t D;
  orientation : Quaternion.t D
}.
End Pose.

Module PoseWithCovariance.
Record t (D : Type) : Type := mk { pose : Pose.t D }.
End PoseWithCovariance.

Module Odometry.
Record t (D : Type) : Type := mk { pose : PoseWithCovariance.t D }.
End Odometry.

Module BezierCurve.
(* uint64 time_stop, control points x[], y[] *)
Record t (D : Type) : Type := mk {
  time_stop : Z;
  x : list D;
  y : list D
}.
End BezierCurve.

Module BezierTrajectory.
(* uint64 time_start, the array curves[] and its fill count *)
Record t (D : Type) : Type := mk {
  time_start : Z;
  curves_count : nat;
  curves : list (BezierCurve.t D)
}.
End BezierTrajectory.

(** ** The context *)

Record context (D : Type) : Type := mk_context {
  status : Status.t;
  offboard_bezier_trajectory : BezierTrajectory.t D;
  offboard_clock_offset : Time.t;
  estimator_odometry : Odometry.t D;
  cmd_vel : Twist.t D;
  wheel_base : D;
  gain_along_track : D;
  gain_cross_track : D;
  gain_heading : D;
  running : Z                         (* atomic_t *)
}.

(** Functions of other translation units. *)
Record Externals (D : Type) : Type := mk_externals {
  (* bezier6_rover:(t,T,PX[1x6],PY[1x6])->(x,y,psi,V,omega) *)
  bezier6_rover : D -> D -> list D -> list D -> D * D * D * D * D;
  (* se2_error:(p[3],r[3])->(error[3]) *)
  se2_error : D * D * D -> D * D * D -> D * D * D;
  atan2 : D -> D -> D;
  synapse_msgs_Status_Mode_MODE_BEZIER : Z
}.

Inductive log_level : Type := LOG_ERR | LOG_WRN | LOG_INF | LOG_DBG.

Inductive event (D : Type) : Type :=
| Log (lvl : log_level) (fmt : string) (args : list Z)
| ShellPrint (fmt : string) (args : list Z)
| CallBezier6Rover (t T : D) (PX PY : list D)
| CallSe2Error (p r : D * D * D)
| PubUpdate (msg : Twist.t D)          (* zros_pub_update(&ctx->pub_cmd_vel) *)
| ThreadCreate.

Arguments Log {D}.
Arguments ShellPrint {D}.
Arguments ThreadCreate {D}.

Section Controller.

Context {D : Type} {ops : DoubleOps D}.
Variable ext : Externals D.

Definition d_zero : D := d_of_int 0.

Definition atomic_get (ctx : context D) : Z := running ctx.

Definition atomic_set (ctx : context D) (v : Z) : context D :=
  mk_context (status ctx) (offboard_bezier_trajectory ctx)
    (offboard_clock_offset ctx) (estimator_odometry ctx) (cmd_vel ctx)
    (wheel_base ctx) (gain_along_track ctx) (gain_cross_track ctx)
    (gain_heading ctx) v.

Definition set_cmd_vel (ctx : context D) (c : Twist.t D) : context D :=
  mk_context (status ctx) (offboard_bezier_trajectory ctx)
    (offboard_clock_offset ctx) (estimator_odometry ctx) c
    (wheel_base ctx) (gain_along_track ctx) (gain_cross_track ctx)
    (gain_heading ctx) (running ctx).

(** [cmd.linear.x = vx; cmd.angular.z = wz;] *)
Definition assign_linear_x_angular_z (c : Twist.t D) (vx wz : D) : Twist.t D :=
  Twist.mk (Twist.has_linear c)
    (Vector3.mk vx (Vector3.y (Twist.linear c)) (Vector3.z (Twist.linear c)))
    (Twist.has_angular c)
    (Vector3.mk (Vector3.x (Twist.angular c)) (Vector3.y (Twist.angular c)) wz).

Definition b3rb_position_init (ctx : context D) : context D := atomic_set ctx 1.

Definition b3rb_position_fini (ctx : context D) : context D := atomic_set ctx 0.

Definition b3rb_position_stop (ctx : context D) : context D :=
  set_cmd_vel ctx (assign_linear_x_angular_z (cmd_vel ctx) d_zero d_zero).

(** ** Tracking evaluation *)

(** [curves[i]]; the array has a fixed capacity, of which [curves_count]
    entries are filled.  An index beyond the capacity (never formed while
    [curves_count] is within it) reads a zeroed curve. *)
Definition curve_at (tr : BezierTrajectory.t D) (i : nat) : BezierCurve.t D :=
  nth i (BezierTrajectory.curves tr) (BezierCurve.mk 0 (repeat d_zero 6) (repeat d_zero 6)).

(** [k_uptime_get() * 1e6 + offset.sec * 1e9 + offset.nanosec], stored in a
    [uint64_t]. *)
Definition current_time_nsec (uptime_ms : Z) (ctx : context D) : Z :=
  d_to_uint64
    (d_add
       (d_add (d_mul (d_of_int uptime_ms) (d_of_int 1000000))
              (d_mul (d_of_int (Time.sec (offboard_clock_offset ctx))) (d_of_int 1000000000)))
       (d_of_int (Time.nanosec (offboard_clock_offset ctx)))).

(** How the search loop of [bezier_position_mode] is left. *)
Inductive search_exit : Type :=
| SearchReturn
    (* index past the filled curves: stop and return from the function *)
| SearchLeave (curve_index : nat) (time_start_nsec time_stop_nsec : Z).
    (* [break], or the loop condition read false: execution continues after
       the loop with these values of the three variables *)

(** The loop [while (atomic_get(&ctx->running)) { ... }], entered with the
    given values of [curve_index], [time_start_nsec] and [time_stop_nsec]. *)
Equations? find_curve (run : Z) (tr : BezierTrajectory.t D)
    (time_nsec time_start_nsec time_stop_nsec : Z) (curve_index : nat)
  : search_exit by wf (BezierTrajectory.curves_count tr - curve_index)%nat lt :=
  find_curve run tr time_nsec time_start_nsec time_stop_nsec curve_index
    with Z.eqb run 0 := {
    | true := SearchLeave curve_index time_start_nsec time_stop_nsec
    | false with Z.ltb time_nsec (BezierCurve.time_stop (curve_at tr curve_index)) := {
      | true :=
          SearchLeave curve_index
            (if (0 <? curve_index)%nat
             then BezierCurve.time_stop (curve_at tr (curve_index - 1))
             else time_start_nsec)
            (BezierCurve.time_stop (curve_at tr curve_index))
      | false with le_lt_dec (BezierTrajectory.curves_count tr) (S curve_index) := {
        | left _ := SearchReturn
        | right _ :=
            find_curve run tr time_nsec time_start_nsec time_stop_nsec (S curve_index) } } }.
Proof. lia. Qed.

(** [for (int i = 0; i < 6; i++) P[i] = a[i];] *)
Definition copy6 (a : list D) : list D :=
  map (fun i => nth i a d_zero) (seq 0 6).

Definition bezier_position_mode (uptime_ms : Z) (ctx : context D)
  : context D * list (event D) :=
  let tr := offboard_bezier_trajectory ctx in
  let time_start_nsec := BezierTrajectory.time_start tr in
  let time_stop_nsec := time_start_nsec in
  let time_nsec := current_time_nsec uptime_ms ctx in
  if time_nsec <? time_start_nsec then
    (b3rb_position_stop ctx,
     [Log LOG_WRN ("time current: %llu ns < time start: %llu  ns, time out of range of trajectory"
          ++ newline)%string
          [time_nsec; time_start_nsec]])
  else
    match find_curve (atomic_get ctx) tr time_nsec time_start_nsec time_stop_nsec 0 with
    | SearchReturn =>
        (b3rb_position_stop ctx, [Log LOG_DBG "curve index exceeds bounds" []])
    | SearchLeave curve_index time_start_nsec time_stop_nsec =>
        let T := d_mul (d_of_int (u64_sub time_stop_nsec time_start_nsec)) d_1e_9 in
        let t := d_mul (d_of_int (u64_sub time_nsec time_start_nsec)) d_1e_9 in
        let PX := copy6 (BezierCurve.x (curve_at tr curve_index)) in
        let PY := copy6 (BezierCurve.y (curve_at tr curve_index)) in
        let '(x, y, psi, V, omega) := bezier6_rover ext t T PX PY in
        let pose := PoseWithCovariance.pose (Odometry.pose (estimator_odometry ctx)) in
        let p := (Vector3.x (Pose.position pose),
                  Vector3.y (Pose.position pose),
                  d_mul (d_of_int 2)
                    (atan2 ext (Quaternion.z (Pose.orientation pose))
                               (Quaternion.w (Pose.orientation pose)))) in
        let r := (x, y, psi) in
        let '(e0, e1, e2) := se2_error ext p r in
        (set_cmd_vel ctx
           (assign_linear_x_angular_z (cmd_vel ctx)
              (d_add V (d_mul (gain_along_track ctx) e0))
              (d_add (d_add omega (d_mul (gain_cross_track ctx) e1))
                     (d_mul (gain_heading ctx) e2))),
         [CallBezier6Rover t T PX PY; CallSe2Error p r])
    end.

(** ** One cycle of the worker *)

(** What the kernel and the transport hand to one iteration of the loop: the
    result of [k_poll], the uptime read during the iteration, and for each
    subscription the sample [zros_sub_update] would copy, when one is
    available. *)
Record cycle_input : Type := mk_cycle_input {
  k_poll_rc : Z;
  k_uptime : Z;
  new_offboard_bezier_trajectory : option (BezierTrajectory.t D);
  new_status : option Status.t;
  new_estimator_odometry : option (Odometry.t D);
  new_offboard_clock_offset : option Time.t
}.

Definition set_offboard_bezier_trajectory (ctx : context D) (m : BezierTrajectory.t D)
  : context D :=
  mk_context (status ctx) m (offboard_clock_offset ctx) (estimator_odometry ctx)
    (cmd_vel ctx) (wheel_base ctx) (gain_along_track ctx) (gain_cross_track ctx)
    (gain_heading ctx) (running ctx).

Definition set_status (ctx : context D) (m : Status.t) : context D :=
  mk_context m (offboard_bezier_trajectory ctx) (offboard_clock_offset ctx)
    (estimator_odometry ctx) (cmd_vel ctx) (wheel_base ctx) (gain_along_track ctx)
    (gain_cross_track ctx) (gain_heading ctx) (running ctx).

Definition set_estimator_odometry (ctx : context D) (m : Odometry.t D) : context D :=
  mk_context (status ctx) (offboard_bezier_trajectory ctx) (offboard_clock_offset ctx)
    m (cmd_vel ctx) (wheel_base ctx) (gain_along_track ctx) (gain_cross_track ctx)
    (gain_heading ctx) (running ctx).

Definition set_offboard_clock_offset (ctx : context D) (m : Time.t) : context D :=
  mk_context (status ctx) (offboard_bezier_trajectory ctx) m (estimator_odometry ctx)
    (cmd_vel ctx) (wheel_base ctx) (gain_along_track ctx) (gain_cross_track ctx)
    (gain_heading ctx) (running ctx).

(** [if (zros_sub_update_available(sub)) zros_sub_update(sub);] *)
Definition update_if_available {M : Type} (set : context D -> M -> context D)
    (sample : option M) (ctx : context D) : context D :=
  match sample with
  | Some m => set ctx m
  | None => ctx
  end.

(** The four updates of an iteration, in the order of the source. *)
Definition update_subscriptions (inp : cycle_input) (ctx : context D) : context D :=
  let ctx := update_if_available set_offboard_bezier_trajectory
               (new_offboard_bezier_trajectory inp) ctx in
  let ctx := update_if_available set_status (new_status inp) ctx in
  let ctx := update_if_available set_estimator_odometry (new_estimator_odometry inp) ctx in
  update_if_available set_offboard_clock_offset (new_offboard_clock_offset inp) ctx.

(** The body of the loop of [b3rb_position_run]. *)
Definition b3rb_position_cycle (inp : cycle_input) (ctx : context D)
  : context D * list (event D) :=
  if negb (k_poll_rc inp =? 0) then
    (ctx, [Log LOG_DBG "pos not receiving estimator odometry" []])
  else
    let ctx := update_subscriptions inp ctx in
    if Status.mode (status ctx) =? synapse_msgs_Status_Mode_MODE_BEZIER ext then
      let '(ctx, evs) := bezier_position_mode (k_uptime inp) ctx in
      (ctx, evs ++ [PubUpdate (cmd_vel ctx)])
    else
      (ctx, []).

(** ** The worker thread *)

Inductive thread_state : Type :=
| ThreadReady      (* created and started; the entry function has not run yet *)
| ThreadInLoop     (* past [b3rb_position_init], at the head of the loop *)
| ThreadDone.      (* past [b3rb_position_fini] *)

(** The condition of the loop of [b3rb_position_run]: [while (true)]. *)
Definition run_loop_condition (ctx : context D) : bool := true.

(** One scheduling step of [b3rb_position_run]: the initialisation, or one
    test of the loop condition followed by one iteration or by the
    finalisation. *)
Definition b3rb_position_run_step (inp : cycle_input) (th : thread_state)
    (ctx : context D) : thread_state * context D * list (event D) :=
  match th with
  | ThreadReady => (ThreadInLoop, b3rb_position_init ctx, [Log LOG_INF "init" []])
  | ThreadInLoop =>
      if run_loop_condition ctx then
        let '(ctx, evs) := b3rb_position_cycle inp ctx in (ThreadInLoop, ctx, evs)
      else
        (ThreadDone, b3rb_position_fini ctx, [])
  | ThreadDone => (ThreadDone, ctx, [])
  end.

(** ** Administration *)

(** The shared context and the threads created so far, in creation order. *)
Record system : Type := mk_system {
  sys_ctx : context D;
  sys_threads : list thread_state
}.

(** [k_thread_create; k_thread_name_set; k_thread_start; return 0;] *)
Definition start (s : system) : system * list (event D) * Z :=
  (mk_system (sys_ctx s) (sys_threads s ++ [ThreadReady]), [ThreadCreate], 0).

Definition b3rb_position_cmd_handler (argc : Z) (argv : list string) (s : system)
  : system * list (event D) * Z :=
  if negb (argc =? 1) then
    (s, [Log LOG_ERR "must have one argument" []], -1)
  else
    let argv0 := nth 0 argv "" in
    if String.eqb argv0 "start" then
      if negb (atomic_get (sys_ctx s) =? 0) then
        (s, [ShellPrint "already running" []], 0)
      else
        let '(s, evs, _) := start s in (s, evs, 0)
    else if String.eqb argv0 "stop" then
      if negb (atomic_get (sys_ctx s) =? 0) then
        (mk_system (atomic_set (sys_ctx s) 0) (sys_threads s), [], 0)
      else
        (s, [ShellPrint "not running" []], 0)
    else if String.eqb argv0 "status" then
      (s, [ShellPrint "running: %d" [atomic_get (sys_ctx s)]], 0)
    else
      (s, [], 0).

Definition b3rb_position_sys_init (s : system) : system * list (event D) * Z :=
  start s.

(** ** Interleaving of the shell thread and the workers *)

Inductive action : Type :=
| ShellCommand (argc : Z) (argv : list string)
| WorkerStep (tid : nat) (inp : cycle_input).

Fixpoint set_nth {A : Type} (n : nat) (a : A) (l : list A) : list A :=
  match l, n with
  | [], _ => []
  | _ :: l, O => a :: l
  | b :: l, S n => b :: set_nth n a l
  end.

Definition step (a : action) (s : system) : system * list (event D) :=
  match a with
  | ShellCommand argc argv => fst (b3rb_position_cmd_handler argc argv s)
  | WorkerStep tid inp =>
      match nth_error (sys_threads s) tid with
      | Some th =>
          let '(th, ctx, evs) := b3rb_position_run_step inp th (sys_ctx s) in
          (mk_system ctx (set_nth tid th (sys_threads s)), evs)
      | None => (s, [])
      end
  end.

Fixpoint run_system (acts : list action) (s : system) : system * list (event D) :=
  match acts with
  | [] => (s, [])
  | a :: acts =>
      let '(s, evs) := step a s in
      let '(s, evs') := run_system acts s in
      (s, evs ++ evs')
  end.

(** ** Start-up *)

(** Values fixed when the firmware is built. *)
Record build_config : Type := mk_build_config {
  CONFIG_CEREBRI_B3RB_WHEEL_BASE_MM : Z;
  CONFIG_CEREBRI_B3RB_GAIN_ALONG_TRACK : Z;
  CONFIG_CEREBRI_B3RB_GAIN_CROSS_TRACK : Z;
  CONFIG_CEREBRI_B3RB_GAIN_HEADING : Z;
  curves_capacity : nat                  (* size of the array [curves] *)
}.

Definition Vector3_init_default : Vector3.t D := Vector3.mk d_zero d_zero d_zero.

(** The static initialiser of [g_ctx]; the [..._init_default] initialisers of
    the message types are taken as all-zero. *)
Definition g_ctx (cfg : build_config) : context D := {|
  status := Status.mk 0;
  offboard_bezier_trajectory :=
    BezierTrajectory.mk 0 0
      (repeat (BezierCurve.mk 0 (repeat d_zero 6) (repeat d_zero 6)) (curves_capacity cfg));
  offboard_clock_offset := Time.mk 0 0;
  estimator_odometry :=
    Odometry.mk (PoseWithCovariance.mk
      (Pose.mk Vector3_init_default (Quaternion.mk d_zero d_zero d_zero d_zero)));
  cmd_vel := Twist.mk true Vector3_init_default true Vector3_init_default;
  wheel_base := d_div (d_of_int (CONFIG_CEREBRI_B3RB_WHEEL_BASE_MM cfg)) (d_of_int 1000);
  gain_along_track := d_div (d_of_int (CONFIG_CEREBRI_B3RB_GAIN_ALONG_TRACK cfg)) (d_of_int 1000);
  gain_cross_track := d_div (d_of_int (CONFIG_CEREBRI_B3RB_GAIN_CROSS_TRACK cfg)) (d_of_int 1000);
  gain_heading := d_div (d_of_int (CONFIG_CEREBRI_B3RB_GAIN_HEADING cfg)) (d_of_int 1000);
  running := 0
|}.

(** The system once [SYS_INIT] has called [b3rb_position_sys_init]. *)
Definition boot (cfg : build_config) : system :=
  fst (fst (b3rb_position_sys_init (mk_system (g_ctx cfg) []))).

(** ** Observations on event lists *)

Fixpoint published (evs : list (event D)) : list (Twist.t D) :=
  match evs with
  | [] => []
  | PubUpdate m :: evs => m :: published evs
  | _ :: evs => published evs
  end.

(** The [(t, T)] arguments of the calls of the curve sampler. *)
Fixpoint sampler_calls (evs : list (event D)) : list (D * D) :=
  match evs with
  | [] => []
  | CallBezier6Rover t T _ _ :: evs => (t, T) :: sampler_calls evs
  | _ :: evs => sampler_calls evs
  end.

Fixpoint estimator_calls (evs : list (event D)) : list (D * D * D * (D * D * D)) :=
  match evs with
  | [] => []
  | CallSe2Error p r :: evs => (p, r) :: estimator_calls evs
  | _ :: evs => estimator_calls evs
  end.

End Controller.

Arguments cycle_input D : clear implicits.
Arguments system D : clear implicits.
Arguments action D : clear implicits.


(** ** Reference notions of the specification *)

Section Reference.

Context {D : Type} {ops : DoubleOps D}.

(** End time of the stored segment [i]. *)
Definition end_time (tr : BezierTrajectory.t D) (i : nat) : Z :=
  BezierCurve.time_stop (curve_at tr i).

(** Segments are stored in non-decreasing end-time order. *)
Definition nondecreasing_end_times (tr : BezierTrajectory.t D) : Prop :=
  forall i j : nat,
    (i <= j)%nat -> (j < BezierTrajectory.curves_count tr)%nat ->
    end_time tr i <= end_time tr j.

(** Segment [i] is the first stored segment whose end time is strictly
    greater than [t]. *)
Definition first_segment_after (tr : BezierTrajectory.t D) (t : Z) (i : nat) : Prop :=
  (i < BezierTrajectory.curves_count tr)%nat /\
  t < end_time tr i /\
  forall j : nat, (j < i)%nat -> end_time tr j <= t.

(** Start of the window of segment [i]: the end time of its predecessor, or
    the start time of the trajectory for the first segment. *)
Definition window_start (tr : BezierTrajectory.t D) (i : nat) : Z :=
  match i with
  | O => BezierTrajectory.time_start tr
  | S j => end_time tr j
  end.

(** The end time of segment [i] exceeds [t] and that of its predecessor does
    not. *)
Definition window_contains (tr : BezierTrajectory.t D) (t : Z) (i : nat) : Prop :=
  (i < BezierTrajectory.curves_count tr)%nat /\
  window_start tr i <= t /\ t < end_time tr i.

(** [t] is at or past the end time of every stored segment. *)
Definition past_every_segment (tr : BezierTrajectory.t D) (t : Z) : Prop :=
  forall i : nat, (i < BezierTrajectory.curves_count tr)%nat -> end_time tr i <= t.

(** The control law of the specification. *)
Definition control_law_forward_speed (gain_along V e_along : D) : D :=
  d_add V (d_mul gain_along e_along).

Definition control_law_turn_rate (gain_cross gain_head omega e_cross e_heading : D) : D :=
  d_add (d_add omega (d_mul gain_cross e_cross)) (d_mul gain_head e_heading).

(** A command whose forward speed and turn rate are both zero. *)
Definition zero_command (c : Twist.t D) : Prop :=
  Vector3.x (Twist.linear c) = d_zero /\ Vector3.z (Twist.angular c) = d_zero.

(** A nanosecond count of type [uint64_t] scaled to seconds:
    [(double)n * 1e-9]. *)
Definition seconds_of_nsec (n : Z) : D := d_mul (d_of_int n) d_1e_9.

(** The pose handed to the error estimator: position and [2 * atan2(z, w)]. *)
Definition vehicle_pose (ext : Externals D) (ctx : context D) : D * D * D :=
  let pose := PoseWithCovariance.pose (Odometry.pose (estimator_odometry ctx)) in
  (Vector3.x (Pose.position pose),
   Vector3.y (Pose.position pose),
   d_mul (d_of_int 2)
     (atan2 ext (Quaternion.z (Pose.orientation pose))
                (Quaternion.w (Pose.orientation pose)))).

(** The value fits [uint64_t]. *)
Definition is_u64 (v : Z) : Prop := 0 <= v < two64.

(** [c'] is [c] with at most [linear.x] and [angular.z] rewritten. *)
Definition only_speed_and_yaw_rate_differ (c c' : Twist.t D) : Prop :=
  exists vx wz : D, c' = assign_linear_x_angular_z c vx wz.

(** [ctx'] has the wheel base, the gains and the running flag of [ctx]. *)
Definition same_gains_and_flag (ctx ctx' : context D) : Prop :=
  wheel_base ctx' = wheel_base ctx /\
  gain_along_track ctx' = gain_along_track ctx /\
  gain_cross_track ctx' = gain_cross_track ctx /\
  gain_heading ctx' = gain_heading ctx /\
  running ctx' = running ctx.

(** What every schedule keeps from start-up on: the flag is 0 or 1, the
    wheel base and the gains are the configured ones, the command differs
    from its static initialiser in [linear.x] and [angular.z] at most, and
    no thread is past the loop. *)
Definition boot_invariant (cfg : build_config) (s : system D) : Prop :=
  (running (sys_ctx s) = 0 \/ running (sys_ctx s) = 1) /\
  wheel_base (sys_ctx s) = wheel_base (g_ctx cfg) /\
  gain_along_track (sys_ctx s) = gain_along_track (g_ctx cfg) /\
  gain_cross_track (sys_ctx s) = gain_cross_track (g_ctx cfg) /\
  gain_heading (sys_ctx s) = gain_heading (g_ctx cfg) /\
  only_speed_and_yaw_rate_differ (cmd_vel (g_ctx cfg)) (cmd_vel (sys_ctx s)) /\
  Forall (fun th : thread_state => th <> ThreadDone) (sys_threads s).

(** The subcommand is none of the three the handler knows. *)
Definition unknown_subcommand (argv0 : string) : Prop :=
  argv0 <> "start" /\ argv0 <> "stop" /\ argv0 <> "status".

End Reference.

(** ** A concrete configuration in binary64 *)

Module Bench.

(** Stand-ins for the functions of other translation units.  The sampler
    returns the first control points as position and its two time
    arguments as [V] and [omega]; the estimator returns the componentwise
    difference of its arguments. *)
Definition probe : Externals float := {|
  bezier6_rover := fun t T PX PY =>
    (nth 0 PX 0%float, nth 0 PY 0%float, 0%float, T, t);
  se2_error := fun p r =>
    let '(px, py, pth) := p in
    let '(rx, ry, rth) := r in
    (PrimFloat.sub px rx, PrimFloat.sub py ry, PrimFloat.sub pth rth);
  atan2 := fun z w => z;
  synapse_msgs_Status_Mode_MODE_BEZIER := 1
|}.

Definition cfg : build_config := mk_build_config 226 1000 2000 3000 4.

(** A curve ending at [te] whose control points run along the x axis from
    [x0]. *)
Definition curve (te x0 : Z) : BezierCurve.t float :=
  BezierCurve.mk te
    (map float_of_Z [x0; x0 + 1; x0 + 2; x0 + 3; x0 + 4; x0 + 5])
    (repeat 0%float 6).

(** Two segments, [1 s, 3 s) and [3 s, 6 s), in an array of capacity 4. *)
Definition trajectory : BezierTrajectory.t float :=
  BezierTrajectory.mk 1000000000 2
    [curve 3000000000 0; curve 6000000000 5; curve 0 0; curve 0 0].

(** No stored segment; the first slot of the array still holds a curve
    that ends at 9 s. *)
Definition emptied_trajectory : BezierTrajectory.t float :=
  BezierTrajectory.mk 1000000000 0
    [curve 9000000000 0; curve 0 0; curve 0 0; curve 0 0].

Definition bezier_status : Status.t := Status.mk 1.
Definition manual_status : Status.t := Status.mk 0.

(** A running worker in tracking mode holding [trajectory]. *)
Definition tracking_ctx : context float :=
  set_status (set_offboard_bezier_trajectory (atomic_set (g_ctx cfg) 1) trajectory)
    bezier_status.

(** The same context with the running flag cleared. *)
Definition halted_ctx : context float := atomic_set tracking_ctx 0.

(** The same context in another mode. *)
Definition manual_ctx : context float := set_status tracking_ctx manual_status.

(** A pose event at the given uptime, with no other sample pending. *)
Definition pose_event (uptime_ms : Z) : cycle_input float :=
  mk_cycle_input 0 uptime_ms None None None None.

(** [k_poll] timed out (-EAGAIN). *)
Definition poll_timeout (uptime_ms : Z) : cycle_input float :=
  mk_cycle_input (-11) uptime_ms None None None None.

(** A pose event that comes with a trajectory and a status sample. *)
Definition first_event (uptime_ms : Z) : cycle_input float :=
  mk_cycle_input 0 uptime_ms (Some trajectory) (Some bezier_status) None None.

Definition running_system : system float :=
  mk_system tracking_ctx [ThreadInLoop].

Definition halted_system : system float :=
  mk_system halted_ctx [ThreadInLoop].

(** A schedule from start-up: the worker initialises; a pose sample arrives
    at 4 s together with [trajectory] and the tracking mode; the shell runs
    [stop]; another pose sample arrives at 4 s. *)
Definition stop_then_pose : list (action float) :=
  [WorkerStep 0 (pose_event 0);
   WorkerStep 0 (first_event 4000);
   ShellCommand 1 ["stop"];
   WorkerStep 0 (pose_event 4000)].

(** A pose event at 500 ms, before [trajectory] starts. *)
Definition early_event : cycle_input float := pose_event 500.

(** [stop] followed by [start]. *)
Definition stop_then_start : list (action float) :=
  [ShellCommand 1 ["stop"]; ShellCommand 1 ["start"]].

(** From start-up: the worker initialises and tracks at 4 s. *)
Definition init_then_track : list (action float) :=
  [WorkerStep 0 (pose_event 0); WorkerStep 0 (first_event 4000)].

(** The command the stand-ins yield when [trajectory] is tracked at 4 s from
    the origin. *)
Definition tracked_command : Twist.t float :=
  assign_linear_x_angular_z (cmd_vel (g_ctx cfg)) (-2)%float 1%float.

End Bench.

(** * Properties *)

(** ** The search loop *)

Section Locator.

Context {D : Type} {ops : DoubleOps D}.
Variables (run : Z) (tr : BezierTrajectory.t D) (time_nsec ts te : Z).

(** One unfolding of the loop, in the shape of the source. *)
Lemma find_curve_eq (curve_index : nat) :
  find_curve run tr time_nsec ts te curve_index =
  if run =? 0 then SearchLeave curve_index ts te
  else if time_nsec <? end_time tr curve_index then
    SearchLeave curve_index
      (if (0 <? curve_index)%nat then end_time tr (curve_index - 1) else ts)
      (end_time tr curve_index)
  else if (BezierTrajectory.curves_count tr <=? S curve_index)%nat then SearchReturn
  else find_curve run tr time_nsec ts te (S curve_index).
Proof.
  rewrite find_curve_unfold_eq at 1.
  unfold find_curve_unfold, find_curve_unfold_clause_1,
    find_curve_unfold_clause_1_clause_2,
    find_curve_unfold_clause_1_clause_2_clause_2, end_time.
  destruct (run =? 0); [reflexivity|].
  destruct (time_nsec <? _); [reflexivity|].
  destruct (le_lt_dec _ _) as [Hle|Hlt].
  - apply Nat.leb_le in Hle. rewrite Hle. reflexivity.
  - apply Nat.leb_gt in Hlt. rewrite Hlt. reflexivity.
Qed.

(** With the flag clear the loop body is never entered. *)
Lemma find_curve_flag_clear (curve_index : nat) :
  run = 0 -> find_curve run tr time_nsec ts te curve_index = SearchLeave curve_index ts te.
Proof.
  intros Hrun. rewrite find_curve_eq, Hrun. reflexivity.
Qed.

(** The loop walks over the segments that have ended and breaks at the first
    one that has not. *)
Lemma find_curve_breaks_at (k : nat) :
  forall i0 i : nat,
    run <> 0 -> i = (i0 + k)%nat ->
    (i < BezierTrajectory.curves_count tr)%nat ->
    time_nsec < end_time tr i ->
    (forall j : nat, (i0 <= j)%nat -> (j < i)%nat -> end_time tr j <= time_nsec) ->
    find_curve run tr time_nsec ts te i0 =
    SearchLeave i (if (0 <? i)%nat then end_time tr (i - 1) else ts) (end_time tr i).
Proof.
  induction k as [|k IH]; intros i0 i Hrun Hi Hcount Hlt Hprev.
  - rewrite Nat.add_0_r in Hi. subst i0.
    rewrite find_curve_eq.
    apply Z.eqb_neq in Hrun. rewrite Hrun.
    apply Z.ltb_lt in Hlt. rewrite Hlt. reflexivity.
  - rewrite find_curve_eq.
    pose proof Hrun as Hrun'. apply Z.eqb_neq in Hrun'. rewrite Hrun'.
    assert (Hge : end_time tr i0 <= time_nsec) by (apply Hprev; lia).
    apply Z.ltb_ge in Hge. rewrite Hge.
    assert (Hbound : (BezierTrajectory.curves_count tr <=? S i0)%nat = false)
      by (apply Nat.leb_gt; lia).
    rewrite Hbound.
    apply IH; try assumption; try lia.
    intros j Hj1 Hj2. apply Hprev; lia.
Qed.

(** Once every stored segment from the current one on has ended, the loop
    runs off the filled part of the array. *)
Lemma find_curve_runs_out (k : nat) :
  forall i0 : nat,
    run <> 0 ->
    (BezierTrajectory.curves_count tr <= S i0 + k)%nat ->
    end_time tr i0 <= time_nsec ->
    (forall j : nat, (i0 <= j)%nat -> (j < BezierTrajectory.curves_count tr)%nat ->
                     end_time tr j <= time_nsec) ->
    find_curve run tr time_nsec ts te i0 = SearchReturn.
Proof.
  induction k as [|k IH]; intros i0 Hrun Hcount Hcur Hall;
    rewrite find_curve_eq;
    pose proof Hrun as Hrun'; apply Z.eqb_neq in Hrun'; rewrite Hrun';
    pose proof Hcur as Hcur'; apply Z.ltb_ge in Hcur'; rewrite Hcur'.
  - assert (Hb : (BezierTrajectory.curves_count tr <=? S i0)%nat = true)
      by (apply Nat.leb_le; lia).
    rewrite Hb. reflexivity.
  - destruct (BezierTrajectory.curves_count tr <=? S i0)%nat eqn:Hb; [reflexivity|].
    apply Nat.leb_gt in Hb.
    apply IH; try assumption; try lia.
    + apply Hall; lia.
    + intros j Hj1 Hj2. apply Hall; lia.
Qed.

(** Whenever the loop is left with the flag set, the window it leaves
    contains the current time. *)
Lemma find_curve_window (k : nat) :
  forall (i0 i : nat) (ts' te' : Z),
    run <> 0 ->
    (BezierTrajectory.curves_count tr <= S i0 + k)%nat ->
    ts <= time_nsec ->
    ((0 < i0)%nat -> end_time tr (i0 - 1) <= time_nsec) ->
    find_curve run tr time_nsec ts te i0 = SearchLeave i ts' te' ->
    ts' <= time_nsec /\ time_nsec < te' /\ te' = end_time tr i.
Proof.
  induction k as [|k IH]; intros i0 i ts' te' Hrun Hcount Hts Hprev;
    rewrite find_curve_eq;
    pose proof Hrun as Hrun'; apply Z.eqb_neq in Hrun'; rewrite Hrun';
    (destruct (time_nsec <? end_time tr i0) eqn:Hlt;
     [ intros Heq; injection Heq as <- <- <-;
       apply Z.ltb_lt in Hlt;
       destruct (0 <? i0)%nat eqn:Hpos;
       [ apply Nat.ltb_lt in Hpos; auto | auto ]
     | apply Z.ltb_ge in Hlt ]).
  - assert (Hb : (BezierTrajectory.curves_count tr <=? S i0)%nat = true)
      by (apply Nat.leb_le; lia).
    rewrite Hb. discriminate.
  - destruct (BezierTrajectory.curves_count tr <=? S i0)%nat eqn:Hb; [discriminate|].
    apply Nat.leb_gt in Hb.
    apply IH; try assumption; try lia.
    intros _. replace (S i0 - 1)%nat with i0 by lia. assumption.
Qed.

End Locator.

(** ** The tracking evaluation *)

Section Evaluation.

Context {D : Type} {ops : DoubleOps D}.
Variable ext : Externals D.

Lemma b3rb_position_stop_idempotent (ctx : context D) :
  b3rb_position_stop (b3rb_position_stop ctx) = b3rb_position_stop ctx.
Proof. reflexivity. Qed.

Lemma b3rb_position_stop_zero (ctx : context D) :
  zero_command (cmd_vel (b3rb_position_stop ctx)).
Proof. split; reflexivity. Qed.

(** The evaluation before the start time of the trajectory. *)
Lemma bezier_position_mode_early (uptime_ms : Z) (ctx : context D) :
  current_time_nsec uptime_ms ctx
    < BezierTrajectory.time_start (offboard_bezier_trajectory ctx) ->
  bezier_position_mode ext uptime_ms ctx =
  (b3rb_position_stop ctx,
   [Log LOG_WRN ("time current: %llu ns < time start: %llu  ns, time out of range of trajectory"
          ++ newline)%string
      [current_time_nsec uptime_ms ctx;
       BezierTrajectory.time_start (offboard_bezier_trajectory ctx)]]).
Proof.
  intros Hlt. unfold bezier_position_mode.
  apply Z.ltb_lt in Hlt. rewrite Hlt. reflexivity.
Qed.

(** The evaluation when the search loop returns. *)
Lemma bezier_position_mode_return (uptime_ms : Z) (ctx : context D) :
  BezierTrajectory.time_start (offboard_bezier_trajectory ctx)
    <= current_time_nsec uptime_ms ctx ->
  find_curve (atomic_get ctx) (offboard_bezier_trajectory ctx)
    (current_time_nsec uptime_ms ctx)
    (BezierTrajectory.time_start (offboard_bezier_trajectory ctx))
    (BezierTrajectory.time_start (offboard_bezier_trajectory ctx)) 0 = SearchReturn ->
  bezier_position_mode ext uptime_ms ctx =
  (b3rb_position_stop ctx, [Log LOG_DBG "curve index exceeds bounds" []]).
Proof.
  intros Hge Hret. unfold bezier_position_mode.
  apply Z.ltb_ge in Hge. rewrite Hge, Hret. reflexivity.
Qed.

(** The evaluation when the search loop is left with a window. *)
Lemma bezier_position_mode_leave (uptime_ms : Z) (ctx : context D)
    (i : nat) (ts te : Z) :
  let tr := offboard_bezier_trajectory ctx in
  let t_now := current_time_nsec uptime_ms ctx in
  BezierTrajectory.time_start tr <= t_now ->
  find_curve (atomic_get ctx) tr t_now
    (BezierTrajectory.time_start tr) (BezierTrajectory.time_start tr) 0
    = SearchLeave i ts te ->
  forall x y psi V omega e0 e1 e2,
    bezier6_rover ext (seconds_of_nsec (u64_sub t_now ts))
      (seconds_of_nsec (u64_sub te ts))
      (copy6 (BezierCurve.x (curve_at tr i))) (copy6 (BezierCurve.y (curve_at tr i)))
      = (x, y, psi, V, omega) ->
    se2_error ext (vehicle_pose ext ctx) (x, y, psi) = (e0, e1, e2) ->
    bezier_position_mode ext uptime_ms ctx =
    (set_cmd_vel ctx
       (assign_linear_x_angular_z (cmd_vel ctx)
          (control_law_forward_speed (gain_along_track ctx) V e0)
          (control_law_turn_rate (gain_cross_track ctx) (gain_heading ctx) omega e1 e2)),
     [CallBezier6Rover (seconds_of_nsec (u64_sub t_now ts))
        (seconds_of_nsec (u64_sub te ts))
        (copy6 (BezierCurve.x (curve_at tr i))) (copy6 (BezierCurve.y (curve_at tr i)));
      CallSe2Error (vehicle_pose ext ctx) (x, y, psi)]).
Proof.
  intros tr t_now Hge Hleave x y psi V omega e0 e1 e2 Hs He.
  unfold bezier_position_mode.
  fold tr. fold t_now.
  apply Z.ltb_ge in Hge. rewrite Hge, Hleave.
  unfold seconds_of_nsec in Hs. rewrite Hs.
  unfold vehicle_pose in He. rewrite He.
  reflexivity.
Qed.

(** The sampler is called with the arguments computed from the window the
    loop leaves, whatever the sampler and the estimator return. *)
Lemma bezier_position_mode_leave_calls (uptime_ms : Z) (ctx : context D)
    (i : nat) (ts te : Z) :
  let tr := offboard_bezier_trajectory ctx in
  let t_now := current_time_nsec uptime_ms ctx in
  BezierTrajectory.time_start tr <= t_now ->
  find_curve (atomic_get ctx) tr t_now
    (BezierTrajectory.time_start tr) (BezierTrajectory.time_start tr) 0
    = SearchLeave i ts te ->
  sampler_calls (snd (bezier_position_mode ext uptime_ms ctx)) =
  [(seconds_of_nsec (u64_sub t_now ts), seconds_of_nsec (u64_sub te ts))].
Proof.
  intros tr t_now Hge Hleave.
  destruct (bezier6_rover ext (seconds_of_nsec (u64_sub t_now ts))
      (seconds_of_nsec (u64_sub te ts))
      (copy6 (BezierCurve.x (curve_at tr i))) (copy6 (BezierCurve.y (curve_at tr i))))
    as [[[[x y] psi] V] omega] eqn:Hs.
  destruct (se2_error ext (vehicle_pose ext ctx) (x, y, psi)) as [[e0 e1] e2] eqn:He.
  rewrite (bezier_position_mode_leave uptime_ms ctx Hge Hleave Hs He).
  reflexivity.
Qed.

(** The samples copied by an iteration leave the command untouched. *)
Lemma update_subscriptions_cmd_vel (inp : cycle_input D) (ctx : context D) :
  cmd_vel (update_subscriptions inp ctx) = cmd_vel ctx.
Proof.
  unfold update_subscriptions.
  destruct (new_offboard_bezier_trajectory inp), (new_status inp),
    (new_estimator_odometry inp), (new_offboard_clock_offset inp); reflexivity.
Qed.

Lemma update_subscriptions_running (inp : cycle_input D) (ctx : context D) :
  running (update_subscriptions inp ctx) = running ctx.
Proof.
  unfold update_subscriptions.
  destruct (new_offboard_bezier_trajectory inp), (new_status inp),
    (new_estimator_odometry inp), (new_offboard_clock_offset inp); reflexivity.
Qed.

(** C10. The stop operation sets the forward speed [linear.x] and the yaw
    rate [angular.z] of the command to zero and leaves every other field of
    the command ([linear.y], [linear.z], [angular.x], [angular.y],
    [has_linear], [has_angular]) as it was, for every prior command; the
    rest of the context is untouched as well. *)
Theorem b3rb_position_stop_frame (ctx : context D) :
  let c := cmd_vel ctx in
  let c' := cmd_vel (b3rb_position_stop ctx) in
  Vector3.x (Twist.linear c') = d_zero /\
  Vector3.z (Twist.angular c') = d_zero /\
  Vector3.y (Twist.linear c') = Vector3.y (Twist.linear c) /\
  Vector3.z (Twist.linear c') = Vector3.z (Twist.linear c) /\
  Vector3.x (Twist.angular c') = Vector3.x (Twist.angular c) /\
  Vector3.y (Twist.angular c') = Vector3.y (Twist.angular c) /\
  Twist.has_linear c' = Twist.has_linear c /\
  Twist.has_angular c' = Twist.has_angular c /\
  b3rb_position_stop ctx = set_cmd_vel ctx c'.
Proof.
  cbv zeta. unfold b3rb_position_stop, set_cmd_vel, assign_linear_x_angular_z.
  simpl. repeat split; reflexivity.
Qed.

(** C5. Whenever the current time is strictly before the start time of the
    trajectory, the evaluation sets the command to zero and returns without
    calling the curve sampler or the error estimator; evaluating again under
    the same condition leaves the same zero command. *)
Theorem before_start_time_stops (uptime_ms : Z) (ctx : context D) :
  current_time_nsec uptime_ms ctx
    < BezierTrajectory.time_start (offboard_bezier_trajectory ctx) ->
  let r := bezier_position_mode ext uptime_ms ctx in
  fst r = b3rb_position_stop ctx /\
  zero_command (cmd_vel (fst r)) /\
  sampler_calls (snd r) = [] /\
  estimator_calls (snd r) = [] /\
  forall uptime_ms' : Z,
    current_time_nsec uptime_ms' (fst r)
      < BezierTrajectory.time_start (offboard_bezier_trajectory (fst r)) ->
    fst (bezier_position_mode ext uptime_ms' (fst r)) = fst r /\
    sampler_calls (snd (bezier_position_mode ext uptime_ms' (fst r))) = [] /\
    estimator_calls (snd (bezier_position_mode ext uptime_ms' (fst r))) = [].
Proof.
  intros Hlt r. subst r.
  rewrite (bezier_position_mode_early uptime_ms ctx Hlt). simpl fst; simpl snd.
  split; [reflexivity|].
  split; [apply b3rb_position_stop_zero|].
  split; [reflexivity|].
  split; [reflexivity|].
  intros uptime_ms' Hlt'.
  rewrite (bezier_position_mode_early uptime_ms' (b3rb_position_stop ctx) Hlt').
  simpl. repeat split; reflexivity.
Qed.

End Evaluation.

Section Tracking.

Context {D : Type} {ops : DoubleOps D}.
Variable ext : Externals D.

(** With non-decreasing end times, at most one stored segment has a window
    that contains a given time. *)
Lemma window_contains_unique (tr : BezierTrajectory.t D) (t : Z) (i j : nat) :
  nondecreasing_end_times tr ->
  first_segment_after tr t i -> window_contains tr t j -> j = i.
Proof.
  intros Hsorted (Hi & Hti & Hbefore) (Hj & Hws & Htj).
  destruct (Nat.lt_trichotomy j i) as [Hlt | [Heq | Hgt]].
  - specialize (Hbefore j Hlt). lia.
  - assumption.
  - destruct j as [|j']; [lia|]. simpl in Hws.
    assert (end_time tr i <= end_time tr j') by (apply Hsorted; lia).
    lia.
Qed.

Lemma first_segment_window (tr : BezierTrajectory.t D) (t : Z) (i : nat) :
  BezierTrajectory.time_start tr <= t ->
  first_segment_after tr t i -> window_contains tr t i.
Proof.
  intros Hstart (Hi & Hti & Hbefore).
  repeat split; try assumption.
  destruct i as [|i']; simpl; [assumption | apply Hbefore; lia].
Qed.

(** The search with the running flag set.  For every trajectory whose
    segments are in non-decreasing end-time order and every current time not
    before its start time, the search selects the first stored segment whose
    end time is strictly greater than the current time; the window start is
    the end time of the previous segment (the start time of the trajectory
    for the first segment) and the window end is the end time of the
    selected segment.  No other stored segment has a window containing the
    current time, and the sampler is called on exactly that window. *)
Theorem segment_locator_selects_first (uptime_ms : Z) (ctx : context D) (i : nat) :
  let tr := offboard_bezier_trajectory ctx in
  let t_now := current_time_nsec uptime_ms ctx in
  atomic_get ctx <> 0 ->
  nondecreasing_end_times tr ->
  BezierTrajectory.time_start tr <= t_now ->
  first_segment_after tr t_now i ->
  find_curve (atomic_get ctx) tr t_now
    (BezierTrajectory.time_start tr) (BezierTrajectory.time_start tr) 0
    = SearchLeave i (window_start tr i) (end_time tr i) /\
  window_contains tr t_now i /\
  (forall j : nat, window_contains tr t_now j -> j = i) /\
  sampler_calls (snd (bezier_position_mode ext uptime_ms ctx)) =
    [(seconds_of_nsec (u64_sub t_now (window_start tr i)),
      seconds_of_nsec (u64_sub (end_time tr i) (window_start tr i)))].
Proof.
  intros tr t_now Hrun Hsorted Hstart Hfirst.
  assert (Hfind :
    find_curve (atomic_get ctx) tr t_now
      (BezierTrajectory.time_start tr) (BezierTrajectory.time_start tr) 0
    = SearchLeave i (window_start tr i) (end_time tr i)).
  { destruct Hfirst as (Hi & Hti & Hbefore).
    rewrite (@find_curve_breaks_at D ops (atomic_get ctx) tr t_now
               (BezierTrajectory.time_start tr) (BezierTrajectory.time_start tr)
               i 0%nat i Hrun eq_refl Hi Hti).
    - destruct i as [|i']; simpl; [reflexivity|].
      rewrite Nat.sub_0_r. reflexivity.
    - intros j _ Hj. apply Hbefore. assumption. }
  split; [exact Hfind|].
  split; [apply first_segment_window; assumption|].
  split; [intros j Hj; eapply window_contains_unique; eassumption|].
  apply (bezier_position_mode_leave_calls ext uptime_ms ctx Hstart Hfind).
Qed.

(** The end of the trajectory with the running flag set and at least one
    stored segment: whenever the current time is at or past the end time
    of every stored segment, by any amount, the evaluation sets the command
    to zero and calls neither the curve sampler nor the error estimator. *)
Theorem past_last_segment_stops (uptime_ms : Z) (ctx : context D) :
  let tr := offboard_bezier_trajectory ctx in
  let r := bezier_position_mode ext uptime_ms ctx in
  atomic_get ctx <> 0 ->
  (1 <= BezierTrajectory.curves_count tr)%nat ->
  past_every_segment tr (current_time_nsec uptime_ms ctx) ->
  fst r = b3rb_position_stop ctx /\
  zero_command (cmd_vel (fst r)) /\
  sampler_calls (snd r) = [] /\
  estimator_calls (snd r) = [].
Proof.
  intros tr r Hrun Hcount Hpast. subst r.
  destruct (Z_lt_le_dec (current_time_nsec uptime_ms ctx) (BezierTrajectory.time_start tr))
    as [Hearly | Hstart].
  - rewrite (bezier_position_mode_early ext uptime_ms ctx Hearly). simpl.
    repeat split; reflexivity.
  - rewrite (bezier_position_mode_return ext uptime_ms ctx Hstart).
    + simpl. repeat split; reflexivity.
    + apply (@find_curve_runs_out D ops (atomic_get ctx) tr _ _ _
               (BezierTrajectory.curves_count tr) 0%nat Hrun).
      * fold tr. lia.
      * apply Hpast. fold tr. lia.
      * intros j _ Hj. apply Hpast. assumption.
Qed.

(** With the flag set, every call of the sampler gets a positive duration
    and an elapsed time inside it, both measured in whole nanoseconds. *)
Lemma sampler_domain_flag_set (uptime_ms : Z) (ctx : context D) (t T : D) :
  let tr := offboard_bezier_trajectory ctx in
  atomic_get ctx <> 0 ->
  is_u64 (BezierTrajectory.time_start tr) ->
  (forall i : nat, is_u64 (end_time tr i)) ->
  In (t, T) (sampler_calls (snd (bezier_position_mode ext uptime_ms ctx))) ->
  exists t_nsec T_nsec : Z,
    0 <= t_nsec /\ t_nsec < T_nsec /\ T_nsec < two64 /\
    t = seconds_of_nsec t_nsec /\ T = seconds_of_nsec T_nsec.
Proof.
  intros tr Hrun Hstart_u64 Hend_u64.
  destruct (Z_lt_le_dec (current_time_nsec uptime_ms ctx) (BezierTrajectory.time_start tr))
    as [Hearly | Hstart].
  { rewrite (bezier_position_mode_early ext uptime_ms ctx Hearly). simpl. tauto. }
  destruct (find_curve (atomic_get ctx) tr (current_time_nsec uptime_ms ctx)
              (BezierTrajectory.time_start tr) (BezierTrajectory.time_start tr) 0)
    as [|i ts te] eqn:Hfind.
  { rewrite (bezier_position_mode_return ext uptime_ms ctx Hstart Hfind). simpl. tauto. }
  rewrite (bezier_position_mode_leave_calls ext uptime_ms ctx Hstart Hfind).
  intros [Heq | []]. injection Heq as <- <-.
  destruct (@find_curve_window D ops (atomic_get ctx) tr
              (current_time_nsec uptime_ms ctx)
              (BezierTrajectory.time_start tr) (BezierTrajectory.time_start tr)
              (BezierTrajectory.curves_count tr) 0%nat i ts te Hrun)
    as (Hlo & Hhi & Hte); try assumption; try lia.
  assert (Hts : 0 <= ts).
  { clear Hhi Hte Hlo. revert Hfind.
    enough (Hgen : forall k i0,
      find_curve (atomic_get ctx) tr (current_time_nsec uptime_ms ctx)
        (BezierTrajectory.time_start tr) (BezierTrajectory.time_start tr) i0
        = SearchLeave i ts te ->
      (BezierTrajectory.curves_count tr <= i0 + k)%nat -> 0 <= ts).
    { intros Hf. apply (Hgen (BezierTrajectory.curves_count tr) 0%nat Hf). lia. }
    induction k as [|k IH]; intros i0; rewrite find_curve_eq;
      (destruct (atomic_get ctx =? 0);
       [ intros Heq _; injection Heq as _ <- _; apply Hstart_u64 |]);
      (destruct (_ <? _);
       [ intros Heq _; injection Heq as _ <- _;
         destruct (0 <? i0)%nat; [apply Hend_u64 | apply Hstart_u64] |]);
      (destruct (_ <=? _)%nat eqn:Hb; [discriminate|]).
    - apply Nat.leb_gt in Hb. intros _ Hk. lia.
    - intros Hf Hk. apply (IH (S i0) Hf). lia. }
  subst te.
  assert (Hte : end_time tr i < two64) by apply Hend_u64.
  exists (current_time_nsec uptime_ms ctx - ts), (end_time tr i - ts).
  unfold u64_sub.
  rewrite !Z.mod_small by (unfold two64 in *; lia).
  repeat split; try reflexivity; try lia.
Qed.

(** With the flag clear, the sampler is called with a duration of zero
    nanoseconds as soon as the start time of the trajectory is reached. *)
Lemma sampler_zero_duration_flag_clear (uptime_ms : Z) (ctx : context D) :
  let tr := offboard_bezier_trajectory ctx in
  let t_now := current_time_nsec uptime_ms ctx in
  atomic_get ctx = 0 ->
  BezierTrajectory.time_start tr <= t_now ->
  sampler_calls (snd (bezier_position_mode ext uptime_ms ctx)) =
  [(seconds_of_nsec (u64_sub t_now (BezierTrajectory.time_start tr)), seconds_of_nsec 0)].
Proof.
  intros tr t_now Hrun Hstart.
  rewrite (bezier_position_mode_leave_calls ext uptime_ms ctx (i := 0%nat) Hstart
             (find_curve_flag_clear _ _ _ _ _ Hrun)).
  unfold u64_sub. rewrite Z.sub_diag. reflexivity.
Qed.

End Tracking.

(** ** The worker cycle *)

Section Cycle.

Context {D : Type} {ops : DoubleOps D}.
Variable ext : Externals D.

(** The events of one tracking evaluation: a single log line, or the two
    calls of the generated functions. *)
Lemma bezier_position_mode_events (uptime_ms : Z) (ctx : context D) :
  (exists lvl fmt args,
      snd (bezier_position_mode ext uptime_ms ctx) = [Log lvl fmt args]) \/
  (exists t T PX PY x y psi V omega e0 e1 e2,
      bezier6_rover ext t T PX PY = (x, y, psi, V, omega) /\
      se2_error ext (vehicle_pose ext ctx) (x, y, psi) = (e0, e1, e2) /\
      bezier_position_mode ext uptime_ms ctx =
      (set_cmd_vel ctx
         (assign_linear_x_angular_z (cmd_vel ctx)
            (control_law_forward_speed (gain_along_track ctx) V e0)
            (control_law_turn_rate (gain_cross_track ctx) (gain_heading ctx) omega e1 e2)),
       [CallBezier6Rover t T PX PY; CallSe2Error (vehicle_pose ext ctx) (x, y, psi)])).
Proof.
  destruct (Z_lt_le_dec (current_time_nsec uptime_ms ctx)
              (BezierTrajectory.time_start (offboard_bezier_trajectory ctx)))
    as [Hearly | Hstart].
  { left. rewrite (bezier_position_mode_early ext uptime_ms ctx Hearly).
    simpl. eauto. }
  destruct (find_curve (atomic_get ctx) (offboard_bezier_trajectory ctx)
              (current_time_nsec uptime_ms ctx)
              (BezierTrajectory.time_start (offboard_bezier_trajectory ctx))
              (BezierTrajectory.time_start (offboard_bezier_trajectory ctx)) 0)
    as [|i ts te] eqn:Hfind.
  { left. rewrite (bezier_position_mode_return ext uptime_ms ctx Hstart Hfind).
    simpl. eauto. }
  right.
  destruct (bezier6_rover ext
      (seconds_of_nsec (u64_sub (current_time_nsec uptime_ms ctx) ts))
      (seconds_of_nsec (u64_sub te ts))
      (copy6 (BezierCurve.x (curve_at (offboard_bezier_trajectory ctx) i)))
      (copy6 (BezierCurve.y (curve_at (offboard_bezier_trajectory ctx) i))))
    as [[[[x y] psi] V] omega] eqn:Hs.
  destruct (se2_error ext (vehicle_pose ext ctx) (x, y, psi)) as [[e0 e1] e2] eqn:He.
  do 12 eexists. split; [exact Hs|]. split; [exact He|].
  apply (bezier_position_mode_leave ext uptime_ms ctx Hstart Hfind Hs He).
Qed.

(** An iteration in another mode than the tracking mode. *)
Lemma b3rb_position_cycle_other_mode (inp : cycle_input D) (ctx : context D) :
  k_poll_rc inp = 0 ->
  Status.mode (status (update_subscriptions inp ctx))
    <> synapse_msgs_Status_Mode_MODE_BEZIER ext ->
  b3rb_position_cycle ext inp ctx = (update_subscriptions inp ctx, []).
Proof.
  intros Hrc Hmode. unfold b3rb_position_cycle.
  rewrite Hrc. simpl.
  apply Z.eqb_neq in Hmode. rewrite Hmode. reflexivity.
Qed.

(** An iteration whose wait timed out. *)
Lemma b3rb_position_cycle_timeout (inp : cycle_input D) (ctx : context D) :
  k_poll_rc inp <> 0 ->
  b3rb_position_cycle ext inp ctx =
  (ctx, [Log LOG_DBG "pos not receiving estimator odometry" []]).
Proof.
  intros Hrc. unfold b3rb_position_cycle.
  apply Z.eqb_neq in Hrc. rewrite Hrc. reflexivity.
Qed.

(** C1, amended.  In every cycle in which a pose sample arrives before the
    timeout and the retained vehicle mode is not the tracking mode, the loop
    publishes no command and leaves the retained command as it was; it calls
    neither the sampler nor the estimator, whatever the retained pose and
    trajectory are. *)
Theorem other_modes_publish_nothing (inp : cycle_input D) (ctx : context D) :
  k_poll_rc inp = 0 ->
  Status.mode (status (update_subscriptions inp ctx))
    <> synapse_msgs_Status_Mode_MODE_BEZIER ext ->
  published (snd (b3rb_position_cycle ext inp ctx)) = [] /\
  cmd_vel (fst (b3rb_position_cycle ext inp ctx)) = cmd_vel ctx /\
  sampler_calls (snd (b3rb_position_cycle ext inp ctx)) = [] /\
  estimator_calls (snd (b3rb_position_cycle ext inp ctx)) = [].
Proof.
  intros Hrc Hmode.
  rewrite (b3rb_position_cycle_other_mode inp ctx Hrc Hmode). simpl.
  rewrite update_subscriptions_cmd_vel. repeat split; reflexivity.
Qed.

(** C7. Whenever a cycle calls the sampler and the estimator, the command it
    publishes is the retained command with
    [forward_speed = V + gain_along * e_along] and
    [turn_rate = omega + gain_cross * e_cross + gain_heading * e_heading],
    where [(V, omega)] are the values the sampler returned and
    [(e_along, e_cross, e_heading)] those the estimator returned on the
    sampled pose: each is the feed-forward value plus the gain-weighted
    errors, with the fixed gains as slopes, and nothing clamps or saturates
    the result. *)
Theorem control_law_contract (inp : cycle_input D) (ctx : context D)
    (t T : D) (PX PY : list D) (p r : D * D * D)
    (x y psi V omega e_along e_cross e_heading : D) :
  let ctx' := fst (b3rb_position_cycle ext inp ctx) in
  let evs := snd (b3rb_position_cycle ext inp ctx) in
  In (CallBezier6Rover t T PX PY) evs ->
  In (CallSe2Error p r) evs ->
  bezier6_rover ext t T PX PY = (x, y, psi, V, omega) ->
  se2_error ext p r = (e_along, e_cross, e_heading) ->
  r = (x, y, psi) /\
  published evs = [cmd_vel ctx'] /\
  cmd_vel ctx' =
    assign_linear_x_angular_z (cmd_vel ctx)
      (control_law_forward_speed (gain_along_track ctx) V e_along)
      (control_law_turn_rate (gain_cross_track ctx) (gain_heading ctx)
         omega e_cross e_heading) /\
  Vector3.x (Twist.linear (cmd_vel ctx')) =
    d_add V (d_mul (gain_along_track ctx) e_along) /\
  Vector3.z (Twist.angular (cmd_vel ctx')) =
    d_add (d_add omega (d_mul (gain_cross_track ctx) e_cross))
          (d_mul (gain_heading ctx) e_heading).
Proof.
  intros ctx' evs. subst ctx' evs.
  unfold b3rb_position_cycle.
  destruct (negb (k_poll_rc inp =? 0)).
  { simpl. intros [Hin | []]. discriminate. }
  destruct (_ =? _).
  2:{ simpl. intros []. }
  destruct (bezier_position_mode_events (k_uptime inp) (update_subscriptions inp ctx))
    as [(lvl & fmt & args & Hlog)
       | (t0 & T0 & PX0 & PY0 & x0 & y0 & psi0 & V0 & omega0 & e0 & e1 & e2 & Hs & He & Heq)].
  { destruct (bezier_position_mode ext (k_uptime inp) (update_subscriptions inp ctx))
      as [c evs]. simpl in Hlog. subst evs. simpl.
    intros [Hin | [Hin | []]]; discriminate. }
  rewrite Heq. simpl.
  intros [Hc | [Hc | [Hc | []]]]; try discriminate. injection Hc as <- <- <- <-.
  intros [Hc | [Hc | [Hc | []]]]; try discriminate. injection Hc as <- <-.
  rewrite Hs. intros Hs'. injection Hs' as <- <- <- <- <-.
  rewrite He. intros He'. injection He' as <- <- <-.
  rewrite update_subscriptions_cmd_vel.
  assert (Hg : gain_along_track (update_subscriptions inp ctx) = gain_along_track ctx /\
               gain_cross_track (update_subscriptions inp ctx) = gain_cross_track ctx /\
               gain_heading (update_subscriptions inp ctx) = gain_heading ctx).
  { unfold update_subscriptions.
    destruct (new_offboard_bezier_trajectory inp), (new_status inp),
      (new_estimator_odometry inp), (new_offboard_clock_offset inp);
      repeat split; reflexivity. }
  destruct Hg as (-> & -> & ->).
  repeat split; reflexivity.
Qed.

End Cycle.

(** ** Threads and administration *)

Section Administration.

Context {D : Type} {ops : DoubleOps D}.
Variable ext : Externals D.

Lemma nth_error_set_nth_same {A : Type} (l : list A) :
  forall (n : nat) (a b : A),
    nth_error l n = Some b -> nth_error (set_nth n a l) n = Some a.
Proof.
  induction l as [|c l IH]; intros [|n] a b H; simpl in *;
    try discriminate; [reflexivity | eauto].
Qed.

Lemma nth_error_set_nth_other {A : Type} (l : list A) :
  forall (n m : nat) (a : A),
    n <> m -> nth_error (set_nth n a l) m = nth_error l m.
Proof.
  induction l as [|c l IH]; intros [|n] [|m] a H; simpl; try reflexivity;
    [contradiction | apply IH; congruence].
Qed.

Lemma set_nth_unchanged {A : Type} (l : list A) :
  forall (n : nat) (a : A), nth_error l n = Some a -> set_nth n a l = l.
Proof.
  induction l as [|c l IH]; intros [|n] a H; simpl in *; try discriminate.
  - congruence.
  - f_equal. apply IH. assumption.
Qed.

(** The handler never removes a thread nor changes the state of one: it
    returns the list of threads it was given, possibly extended at its end. *)
Lemma cmd_handler_threads (argc : Z) (argv : list string) (s : system D) :
  exists extra : list thread_state,
    sys_threads (fst (fst (b3rb_position_cmd_handler argc argv s)))
    = sys_threads s ++ extra.
Proof.
  unfold b3rb_position_cmd_handler.
  destruct (negb (argc =? 1)); [exists []; simpl; symmetry; apply app_nil_r|].
  destruct (nth 0 argv "" =? "start")%string.
  { destruct (negb (atomic_get (sys_ctx s) =? 0)); simpl.
    - exists []. symmetry; apply app_nil_r.
    - exists [ThreadReady]. reflexivity. }
  destruct (nth 0 argv "" =? "stop")%string.
  { destruct (negb (atomic_get (sys_ctx s) =? 0)); simpl;
      exists []; symmetry; apply app_nil_r. }
  destruct (nth 0 argv "" =? "status")%string; simpl; exists []; symmetry; apply app_nil_r.
Qed.

(** A thread inside the loop steps back to the head of the loop. *)
Lemma b3rb_position_run_step_in_loop (inp : cycle_input D) (ctx : context D) :
  b3rb_position_run_step ext inp ThreadInLoop ctx =
  (ThreadInLoop, fst (b3rb_position_cycle ext inp ctx),
   snd (b3rb_position_cycle ext inp ctx)).
Proof.
  unfold b3rb_position_run_step, run_loop_condition.
  destruct (b3rb_position_cycle ext inp ctx). reflexivity.
Qed.

(** No step of the entry function leads past the loop. *)
Lemma b3rb_position_run_step_not_done (inp : cycle_input D) (th : thread_state)
    (ctx : context D) :
  th <> ThreadDone ->
  fst (fst (b3rb_position_run_step ext inp th ctx)) = ThreadInLoop.
Proof.
  destruct th; intros H; try contradiction; [reflexivity|].
  rewrite b3rb_position_run_step_in_loop. reflexivity.
Qed.

(** A step of a worker inside the loop is one iteration of the loop. *)
Lemma step_worker_in_loop (tid : nat) (inp : cycle_input D) (s : system D) :
  nth_error (sys_threads s) tid = Some ThreadInLoop ->
  step ext (WorkerStep tid inp) s =
  (mk_system (fst (b3rb_position_cycle ext inp (sys_ctx s))) (sys_threads s),
   snd (b3rb_position_cycle ext inp (sys_ctx s))).
Proof.
  intros Hth. unfold step. rewrite Hth, b3rb_position_run_step_in_loop.
  rewrite (set_nth_unchanged _ _ Hth). reflexivity.
Qed.

(** Whatever happens next, a worker inside the loop is still inside it. *)
Lemma step_keeps_worker_in_loop (a : action D) (s : system D) (tid : nat) :
  nth_error (sys_threads s) tid = Some ThreadInLoop ->
  nth_error (sys_threads (fst (step ext a s))) tid = Some ThreadInLoop.
Proof.
  intros Hth. destruct a as [argc argv | tid' inp]; simpl.
  - destruct (cmd_handler_threads argc argv s) as [extra Hextra].
    rewrite Hextra, nth_error_app1; [assumption|].
    apply nth_error_Some. congruence.
  - destruct (nth_error (sys_threads s) tid') as [th|] eqn:Hth'; [|assumption].
    destruct (b3rb_position_run_step ext inp th (sys_ctx s)) as [[th1 ctx1] evs] eqn:Hstep.
    simpl.
    destruct (Nat.eq_dec tid' tid) as [-> | Hne].
    + rewrite Hth in Hth'. injection Hth' as <-.
      rewrite b3rb_position_run_step_in_loop in Hstep. injection Hstep as <- _ _.
      eapply nth_error_set_nth_same. eassumption.
    + rewrite nth_error_set_nth_other by assumption. assumption.
Qed.

Lemma run_system_keeps_worker_in_loop (acts : list (action D)) :
  forall (s : system D) (tid : nat),
    nth_error (sys_threads s) tid = Some ThreadInLoop ->
    nth_error (sys_threads (fst (run_system ext acts s))) tid = Some ThreadInLoop.
Proof.
  induction acts as [|a acts IH]; intros s tid Hth; simpl; [assumption|].
  pose proof (step_keeps_worker_in_loop a s tid Hth) as Hstep.
  destruct (step ext a s) as [s1 evs1]. simpl in Hstep.
  specialize (IH s1 tid Hstep).
  destruct (run_system ext acts s1) as [s2 evs2]. exact IH.
Qed.

(** The [stop] command with the flag set clears the flag and nothing else. *)
Lemma cmd_handler_stop_running (s : system D) :
  atomic_get (sys_ctx s) <> 0 ->
  b3rb_position_cmd_handler 1 ["stop"] s =
  (mk_system (atomic_set (sys_ctx s) 0) (sys_threads s), [], 0).
Proof.
  intros Hrun. unfold b3rb_position_cmd_handler. simpl.
  apply Z.eqb_neq in Hrun. rewrite Hrun. reflexivity.
Qed.

Lemma cmd_handler_status (s : system D) :
  b3rb_position_cmd_handler 1 ["status"] s =
  (s, [ShellPrint "running: %d" [atomic_get (sys_ctx s)]], 0).
Proof. reflexivity. Qed.

(** C2. The claim fails on the code: the loop of the worker is
    [while (true)].  After the administrative stop has cleared the running
    flag, every later step of the worker is again a full iteration of the
    loop, and the worker never gets past the loop, whatever is scheduled
    afterwards. *)
Theorem worker_keeps_cycling_after_stop (s : system D) (tid : nat) :
  nth_error (sys_threads s) tid = Some ThreadInLoop ->
  atomic_get (sys_ctx s) <> 0 ->
  let s1 := fst (step ext (ShellCommand 1 ["stop"]) s) in
  atomic_get (sys_ctx s1) = 0 /\
  (forall inp : cycle_input D,
      step ext (WorkerStep tid inp) s1 =
      (mk_system (fst (b3rb_position_cycle ext inp (sys_ctx s1))) (sys_threads s1),
       snd (b3rb_position_cycle ext inp (sys_ctx s1)))) /\
  (forall acts : list (action D),
      nth_error (sys_threads (fst (run_system ext acts s1))) tid = Some ThreadInLoop).
Proof.
  intros Hth Hrun s1.
  assert (Hs1 : s1 = mk_system (atomic_set (sys_ctx s) 0) (sys_threads s)).
  { subst s1. unfold step. rewrite (cmd_handler_stop_running s Hrun). reflexivity. }
  assert (Hth1 : nth_error (sys_threads s1) tid = Some ThreadInLoop)
    by (rewrite Hs1; exact Hth).
  split; [rewrite Hs1; reflexivity|].
  split.
  - intros inp. apply step_worker_in_loop. exact Hth1.
  - intros acts. apply run_system_keeps_worker_in_loop. exact Hth1.
Qed.

(** C8. In every cycle in which the wait for a pose sample times out, the
    worker publishes nothing, calls neither the sampler nor the estimator,
    leaves the context as it was and is back at the head of the loop; a
    status query made afterwards reports the run state unchanged, so a
    running worker is still reported as running. *)
Theorem stale_input_cycle (s : system D) (tid : nat) (inp : cycle_input D) :
  nth_error (sys_threads s) tid = Some ThreadInLoop ->
  k_poll_rc inp <> 0 ->
  let s' := fst (step ext (WorkerStep tid inp) s) in
  let evs := snd (step ext (WorkerStep tid inp) s) in
  published evs = [] /\
  sampler_calls evs = [] /\
  estimator_calls evs = [] /\
  s' = s /\
  nth_error (sys_threads s') tid = Some ThreadInLoop /\
  snd (fst (b3rb_position_cmd_handler 1 ["status"] s')) =
    [ShellPrint "running: %d" [atomic_get (sys_ctx s)]] /\
  (atomic_get (sys_ctx s) = 1 ->
   snd (fst (b3rb_position_cmd_handler 1 ["status"] s')) =
     [ShellPrint "running: %d" [1]]).
Proof.
  intros Hth Hrc s' evs. subst s' evs.
  rewrite (step_worker_in_loop tid inp s Hth).
  rewrite (b3rb_position_cycle_timeout ext inp (sys_ctx s) Hrc). simpl.
  assert (Hs : mk_system (sys_ctx s) (sys_threads s) = s) by (destruct s; reflexivity).
  rewrite Hs.
  repeat split; try reflexivity; try assumption.
  intros Hone. unfold b3rb_position_cmd_handler. simpl. rewrite Hone. reflexivity.
Qed.

(** C9. The command handler: [start] with the flag set prints
    "already running", creates no thread and changes nothing; [stop] with
    the flag clear prints "not running" and changes nothing; any invocation
    with an argument count other than one returns the error code -1 and
    changes nothing; [status] prints the current value of the flag and
    changes nothing. *)
Theorem cmd_handler_contract (s : system D) :
  (atomic_get (sys_ctx s) <> 0 ->
   b3rb_position_cmd_handler 1 ["start"] s = (s, [ShellPrint "already running" []], 0)) /\
  (atomic_get (sys_ctx s) = 0 ->
   b3rb_position_cmd_handler 1 ["stop"] s = (s, [ShellPrint "not running" []], 0)) /\
  (forall (argc : Z) (argv : list string),
      argc <> 1 ->
      b3rb_position_cmd_handler argc argv s =
      (s, [Log LOG_ERR "must have one argument" []], -1)) /\
  b3rb_position_cmd_handler 1 ["status"] s =
    (s, [ShellPrint "running: %d" [atomic_get (sys_ctx s)]], 0).
Proof.
  repeat split.
  - intros Hrun. unfold b3rb_position_cmd_handler. simpl.
    apply Z.eqb_neq in Hrun. rewrite Hrun. reflexivity.
  - intros Hrun. unfold b3rb_position_cmd_handler. simpl.
    rewrite Hrun. reflexivity.
  - intros argc argv Hargc. unfold b3rb_position_cmd_handler.
    apply Z.eqb_neq in Hargc. rewrite Hargc. reflexivity.
Qed.

End Administration.

(** * Concrete runs in binary64 *)

Module Runs.

Import Bench.

Lemma trajectory_nondecreasing : nondecreasing_end_times trajectory.
Proof.
  intros i j Hij Hj. simpl in Hj.
  destruct j as [|[|j]]; destruct i as [|[|i]]; try lia;
    apply Z.leb_le; reflexivity.
Qed.

(** At 4 s the second segment of [trajectory] is the first one that has not
    ended. *)
Lemma trajectory_first_after_4s :
  first_segment_after trajectory (current_time_nsec 4000 tracking_ctx) 1.
Proof.
  split; [simpl; lia|].
  split; [apply Z.ltb_lt; vm_compute; reflexivity|].
  intros j Hj. assert (j = 0%nat) as -> by lia.
  apply Z.leb_le. vm_compute. reflexivity.
Qed.

(** At 7 s both segments of [trajectory] have ended. *)
Lemma trajectory_past_at_7s :
  past_every_segment trajectory (current_time_nsec 7000 tracking_ctx).
Proof.
  intros i Hi. simpl in Hi.
  destruct i as [|[|i]]; try lia; apply Z.leb_le; vm_compute; reflexivity.
Qed.

(** C1, counterexample.  A pose sample arrives, the retained mode is not the
    tracking mode, and the cycle publishes nothing: no command [(0, 0)] is
    published. *)
Lemma other_mode_cycle_publishes_no_zero_command :
  k_poll_rc (pose_event 4000) = 0 /\
  Status.mode (status (update_subscriptions (pose_event 4000) manual_ctx))
    <> synapse_msgs_Status_Mode_MODE_BEZIER probe /\
  published (snd (b3rb_position_cycle probe (pose_event 4000) manual_ctx)) = [] /\
  ~ (exists c : Twist.t float,
        In c (published (snd (b3rb_position_cycle probe (pose_event 4000) manual_ctx)))
        /\ zero_command c).
Proof.
  split; [reflexivity|].
  split; [apply Z.eqb_neq; reflexivity|].
  split; [reflexivity|].
  intros (c & Hin & _). exact Hin.
Qed.

Lemma other_modes_publish_nothing_witness :
  k_poll_rc (pose_event 4000) = 0 /\
  Status.mode (status (update_subscriptions (pose_event 4000) manual_ctx))
    <> synapse_msgs_Status_Mode_MODE_BEZIER probe /\
  published (snd (b3rb_position_cycle probe (pose_event 4000) manual_ctx)) = [] /\
  cmd_vel (fst (b3rb_position_cycle probe (pose_event 4000) manual_ctx))
    = cmd_vel manual_ctx.
Proof.
  assert (Hrc : k_poll_rc (pose_event 4000) = 0) by reflexivity.
  assert (Hmode :
    Status.mode (status (update_subscriptions (pose_event 4000) manual_ctx))
      <> synapse_msgs_Status_Mode_MODE_BEZIER probe)
    by (simpl; lia).
  split; [exact Hrc|]. split; [exact Hmode|].
  destruct (other_modes_publish_nothing probe (pose_event 4000) manual_ctx Hrc Hmode)
    as (Hpub & Hcmd & _).
  split; [exact Hpub | exact Hcmd].
Defined.

(** C4. The claim fails on the code: the search loop is guarded by the
    running flag, which [stop] clears while the worker keeps cycling.  The
    segments of [trajectory] are in non-decreasing end-time order, the
    current time 4 s is not before its start time, and its second segment
    is the first one ending after 4 s; with the running flag clear the
    search leaves the loop at index 0 with the empty window
    [time_start, time_start) instead of selecting that segment with the
    window from 3 s to 6 s. *)
Lemma locator_flag_clear_selects_nothing :
  nondecreasing_end_times (offboard_bezier_trajectory halted_ctx) /\
  BezierTrajectory.time_start (offboard_bezier_trajectory halted_ctx)
    <= current_time_nsec 4000 halted_ctx /\
  first_segment_after (offboard_bezier_trajectory halted_ctx)
    (current_time_nsec 4000 halted_ctx) 1 /\
  find_curve (atomic_get halted_ctx) (offboard_bezier_trajectory halted_ctx)
    (current_time_nsec 4000 halted_ctx) 1000000000 1000000000 0
    = SearchLeave 0 1000000000 1000000000 /\
  find_curve (atomic_get halted_ctx) (offboard_bezier_trajectory halted_ctx)
    (current_time_nsec 4000 halted_ctx)
    (BezierTrajectory.time_start (offboard_bezier_trajectory halted_ctx))
    (BezierTrajectory.time_start (offboard_bezier_trajectory halted_ctx)) 0
    <> SearchLeave 1
         (window_start (offboard_bezier_trajectory halted_ctx) 1)
         (end_time (offboard_bezier_trajectory halted_ctx) 1).
Proof.
  split; [exact trajectory_nondecreasing|].
  split; [apply Z.leb_le; vm_compute; reflexivity|].
  split; [exact trajectory_first_after_4s|].
  split; [vm_compute; reflexivity|].
  vm_compute. intros H. discriminate H.
Qed.

Lemma segment_locator_selects_first_witness :
  atomic_get tracking_ctx <> 0 /\
  nondecreasing_end_times (offboard_bezier_trajectory tracking_ctx) /\
  BezierTrajectory.time_start (offboard_bezier_trajectory tracking_ctx)
    <= current_time_nsec 4000 tracking_ctx /\
  first_segment_after (offboard_bezier_trajectory tracking_ctx)
    (current_time_nsec 4000 tracking_ctx) 1 /\
  find_curve (atomic_get tracking_ctx) (offboard_bezier_trajectory tracking_ctx)
    (current_time_nsec 4000 tracking_ctx) 1000000000 1000000000 0
    = SearchLeave 1 3000000000 6000000000 /\
  sampler_calls (snd (bezier_position_mode probe 4000 tracking_ctx))
    = [(1%float, 3%float)].
Proof.
  assert (Hrun : atomic_get tracking_ctx <> 0) by (simpl; lia).
  assert (Hstart :
    BezierTrajectory.time_start (offboard_bezier_trajectory tracking_ctx)
      <= current_time_nsec 4000 tracking_ctx)
    by (apply Z.leb_le; vm_compute; reflexivity).
  split; [exact Hrun|].
  split; [exact trajectory_nondecreasing|].
  split; [exact Hstart|].
  split; [exact trajectory_first_after_4s|].
  destruct (segment_locator_selects_first probe 4000 tracking_ctx
              Hrun trajectory_nondecreasing Hstart trajectory_first_after_4s)
    as (Hfind & _ & _ & Hcalls).
  split; [exact Hfind | exact Hcalls].
Defined.

(** C6. The claim fails on the code.  Two evaluations at 7 s, at or past the
    end time of every stored segment, call the sampler instead of zeroing
    the command: one with the running flag clear, where the guarded search
    loop is skipped and execution falls through to the sampler with a
    duration of zero; one with the flag set and a trajectory that stores no
    segment, where the loop reads the first slot of the array, which holds a
    curve ending at 9 s, before it compares the index with the count. *)
Lemma past_end_evaluations_call_sampler :
  (past_every_segment (offboard_bezier_trajectory halted_ctx)
     (current_time_nsec 7000 halted_ctx) /\
   sampler_calls (snd (bezier_position_mode probe 7000 halted_ctx))
     = [(6%float, 0%float)] /\
   ~ (zero_command (cmd_vel (fst (bezier_position_mode probe 7000 halted_ctx))) /\
      sampler_calls (snd (bezier_position_mode probe 7000 halted_ctx)) = [])) /\
  (past_every_segment emptied_trajectory
     (current_time_nsec 7000
        (set_offboard_bezier_trajectory tracking_ctx emptied_trajectory)) /\
   sampler_calls
     (snd (bezier_position_mode probe 7000
             (set_offboard_bezier_trajectory tracking_ctx emptied_trajectory)))
     = [(6%float, 8%float)] /\
   ~ (zero_command
        (cmd_vel (fst (bezier_position_mode probe 7000
                         (set_offboard_bezier_trajectory tracking_ctx emptied_trajectory)))) /\
      sampler_calls
        (snd (bezier_position_mode probe 7000
                (set_offboard_bezier_trajectory tracking_ctx emptied_trajectory))) = [])).
Proof.
  split.
  - split; [exact trajectory_past_at_7s|].
    split; [vm_compute; reflexivity|].
    intros [_ H]. vm_compute in H. discriminate H.
  - split; [intros i Hi; simpl in Hi; lia|].
    split; [vm_compute; reflexivity|].
    intros [_ H]. vm_compute in H. discriminate H.
Qed.

Lemma past_last_segment_stops_witness :
  atomic_get tracking_ctx <> 0 /\
  (1 <= BezierTrajectory.curves_count (offboard_bezier_trajectory tracking_ctx))%nat /\
  past_every_segment (offboard_bezier_trajectory tracking_ctx)
    (current_time_nsec 7000 tracking_ctx) /\
  zero_command (cmd_vel (fst (bezier_position_mode probe 7000 tracking_ctx))) /\
  sampler_calls (snd (bezier_position_mode probe 7000 tracking_ctx)) = [].
Proof.
  assert (Hrun : atomic_get tracking_ctx <> 0) by (simpl; lia).
  assert (Hcount :
    (1 <= BezierTrajectory.curves_count (offboard_bezier_trajectory tracking_ctx))%nat)
    by (simpl; lia).
  split; [exact Hrun|]. split; [exact Hcount|].
  split; [exact trajectory_past_at_7s|].
  destruct (past_last_segment_stops probe 7000 tracking_ctx
              Hrun Hcount trajectory_past_at_7s)
    as (_ & Hzero & Hcalls & _).
  split; [exact Hzero | exact Hcalls].
Defined.

(** C3. The claim fails on the code.  From start-up, under [stop_then_pose],
    the worker calls the sampler twice: first with [t = 1 s] inside the
    window of length [T = 3 s]; then, the running flag having been cleared
    by [stop], with [t = 3 s] and [T = 0], so neither [T > 0] nor [t <= T]
    holds for the second call. *)
Theorem sampler_called_with_zero_duration :
  sampler_calls (snd (run_system probe stop_then_pose (boot cfg)))
    = [(1%float, 3%float); (3%float, 0%float)] /\
  atomic_get (sys_ctx (fst (run_system probe stop_then_pose (boot cfg)))) = 0 /\
  PrimFloat.ltb 0%float 0%float = false /\
  PrimFloat.leb 3%float 0%float = false.
Proof.
  repeat split; vm_compute; reflexivity.
Qed.

Lemma worker_keeps_cycling_after_stop_witness :
  nth_error (sys_threads running_system) 0 = Some ThreadInLoop /\
  atomic_get (sys_ctx running_system) <> 0 /\
  atomic_get (sys_ctx (fst (step probe (ShellCommand 1 ["stop"]) running_system))) = 0 /\
  nth_error
    (sys_threads
       (fst (run_system probe [WorkerStep 0 (pose_event 4000)]
               (fst (step probe (ShellCommand 1 ["stop"]) running_system))))) 0
    = Some ThreadInLoop.
Proof.
  assert (Hth : nth_error (sys_threads running_system) 0 = Some ThreadInLoop)
    by reflexivity.
  assert (Hrun : atomic_get (sys_ctx running_system) <> 0) by (simpl; lia).
  split; [exact Hth|]. split; [exact Hrun|].
  destruct (worker_keeps_cycling_after_stop probe running_system 0 Hth Hrun)
    as (Hflag & _ & Hloop).
  split; [exact Hflag | exact (Hloop [WorkerStep 0 (pose_event 4000)])].
Defined.

Lemma before_start_time_stops_witness :
  current_time_nsec 500 tracking_ctx
    < BezierTrajectory.time_start (offboard_bezier_trajectory tracking_ctx) /\
  fst (bezier_position_mode probe 500 tracking_ctx) = b3rb_position_stop tracking_ctx /\
  zero_command (cmd_vel (fst (bezier_position_mode probe 500 tracking_ctx))) /\
  sampler_calls (snd (bezier_position_mode probe 500 tracking_ctx)) = [] /\
  estimator_calls (snd (bezier_position_mode probe 500 tracking_ctx)) = [].
Proof.
  assert (Hlt :
    current_time_nsec 500 tracking_ctx
      < BezierTrajectory.time_start (offboard_bezier_trajectory tracking_ctx))
    by (apply Z.ltb_lt; vm_compute; reflexivity).
  split; [exact Hlt|].
  destruct (before_start_time_stops probe 500 tracking_ctx Hlt)
    as (Hstop & Hzero & Hs & He & _).
  repeat split; try assumption; apply Hzero.
Defined.

Lemma control_law_contract_witness :
  In (CallBezier6Rover 1%float 3%float
        (map float_of_Z [5; 6; 7; 8; 9; 10]) (repeat 0%float 6))
     (snd (b3rb_position_cycle probe (pose_event 4000) tracking_ctx)) /\
  In (CallSe2Error (0%float, 0%float, 0%float) (5%float, 0%float, 0%float))
     (snd (b3rb_position_cycle probe (pose_event 4000) tracking_ctx)) /\
  Vector3.x (Twist.linear
    (cmd_vel (fst (b3rb_position_cycle probe (pose_event 4000) tracking_ctx))))
    = PrimFloat.add 3%float (PrimFloat.mul (gain_along_track tracking_ctx) (-5)%float) /\
  Vector3.z (Twist.angular
    (cmd_vel (fst (b3rb_position_cycle probe (pose_event 4000) tracking_ctx))))
    = PrimFloat.add
        (PrimFloat.add 1%float (PrimFloat.mul (gain_cross_track tracking_ctx) 0%float))
        (PrimFloat.mul (gain_heading tracking_ctx) 0%float) /\
  published (snd (b3rb_position_cycle probe (pose_event 4000) tracking_ctx))
    = [cmd_vel (fst (b3rb_position_cycle probe (pose_event 4000) tracking_ctx))].
Proof.
  assert (Hs :
    In (CallBezier6Rover 1%float 3%float
          (map float_of_Z [5; 6; 7; 8; 9; 10]) (repeat 0%float 6))
       (snd (b3rb_position_cycle probe (pose_event 4000) tracking_ctx)))
    by (vm_compute; left; reflexivity).
  assert (He :
    In (CallSe2Error (0%float, 0%float, 0%float) (5%float, 0%float, 0%float))
       (snd (b3rb_position_cycle probe (pose_event 4000) tracking_ctx)))
    by (vm_compute; right; left; reflexivity).
  split; [exact Hs|]. split; [exact He|].
  destruct (control_law_contract probe (pose_event 4000) tracking_ctx
              1%float 3%float (map float_of_Z [5; 6; 7; 8; 9; 10]) (repeat 0%float 6)
              (0%float, 0%float, 0%float) (5%float, 0%float, 0%float)
              (x := 5%float) (y := 0%float) (psi := 0%float)
              (V := 3%float) (omega := 1%float)
              (e_along := (-5)%float) (e_cross := 0%float) (e_heading := 0%float)
              Hs He)
    as (_ & Hpub & _ & Hx & Hz); [vm_compute; reflexivity | vm_compute; reflexivity|].
  split; [exact Hx|]. split; [exact Hz | exact Hpub].
Defined.

Lemma stale_input_cycle_witness :
  nth_error (sys_threads running_system) 0 = Some ThreadInLoop /\
  k_poll_rc (poll_timeout 4000) <> 0 /\
  published (snd (step probe (WorkerStep 0 (poll_timeout 4000)) running_system)) = [] /\
  fst (step probe (WorkerStep 0 (poll_timeout 4000)) running_system) = running_system /\
  snd (fst (b3rb_position_cmd_handler 1 ["status"]
              (fst (step probe (WorkerStep 0 (poll_timeout 4000)) running_system))))
    = [ShellPrint "running: %d" [1]].
Proof.
  assert (Hth : nth_error (sys_threads running_system) 0 = Some ThreadInLoop)
    by reflexivity.
  assert (Hrc : k_poll_rc (poll_timeout 4000) <> 0) by (simpl; lia).
  split; [exact Hth|]. split; [exact Hrc|].
  destruct (stale_input_cycle probe running_system 0 (poll_timeout 4000) Hth Hrc)
    as (Hpub & _ & _ & Hsame & _ & _ & Hstatus).
  split; [exact Hpub|]. split; [exact Hsame|].
  apply Hstatus. reflexivity.
Defined.

Lemma cmd_handler_contract_witness :
  atomic_get (sys_ctx running_system) <> 0 /\
  b3rb_position_cmd_handler 1 ["start"] running_system
    = (running_system, [ShellPrint "already running" []], 0) /\
  atomic_get (sys_ctx halted_system) = 0 /\
  b3rb_position_cmd_handler 1 ["stop"] halted_system
    = (halted_system, [ShellPrint "not running" []], 0) /\
  2 <> 1 /\
  b3rb_position_cmd_handler 2 ["start"; "now"] running_system
    = (running_system, [Log LOG_ERR "must have one argument" []], -1) /\
  b3rb_position_cmd_handler 1 ["status"] running_system
    = (running_system, [ShellPrint "running: %d" [1]], 0).
Proof.
  assert (Hrun : atomic_get (sys_ctx running_system) <> 0) by (simpl; lia).
  assert (Hclear : atomic_get (sys_ctx halted_system) = 0) by reflexivity.
  assert (Hargc : 2 <> 1) by lia.
  destruct (cmd_handler_contract running_system) as (Hstart & _ & Herr & Hstatus).
  destruct (cmd_handler_contract halted_system) as (_ & Hstop & _ & _).
  split; [exact Hrun|]. split; [exact (Hstart Hrun)|].
  split; [exact Hclear|]. split; [exact (Hstop Hclear)|].
  split; [exact Hargc|]. split; [exact (Herr 2 ["start"; "now"] Hargc)|].
  exact Hstatus.
Defined.

End Runs.

(** * Further properties of the controller *)

(** ** Shape of an evaluation and of a cycle *)

Section Shapes.

Context {D : Type} {ops : DoubleOps D}.
Variable ext : Externals D.

Lemma assign_absorbs (c : Twist.t D) (a b a' b' : D) :
  assign_linear_x_angular_z (assign_linear_x_angular_z c a b) a' b'
  = assign_linear_x_angular_z c a' b'.
Proof. reflexivity. Qed.

Lemma only_speed_and_yaw_rate_differ_refl (c : Twist.t D) :
  only_speed_and_yaw_rate_differ c c.
Proof.
  exists (Vector3.x (Twist.linear c)), (Vector3.z (Twist.angular c)).
  destruct c as [hl [lx ly lz] ha [ax ay az]]. reflexivity.
Qed.

Lemma only_speed_and_yaw_rate_differ_assign (c0 c : Twist.t D) (a b : D) :
  only_speed_and_yaw_rate_differ c0 c ->
  only_speed_and_yaw_rate_differ c0 (assign_linear_x_angular_z c a b).
Proof.
  intros (vx & wz & ->). exists a, b. apply assign_absorbs.
Qed.

Lemma update_subscriptions_gains (inp : cycle_input D) (ctx : context D) :
  same_gains_and_flag ctx (update_subscriptions inp ctx).
Proof.
  unfold update_subscriptions, same_gains_and_flag.
  destruct (new_offboard_bezier_trajectory inp), (new_status inp),
    (new_estimator_odometry inp), (new_offboard_clock_offset inp);
    repeat split; reflexivity.
Qed.

(** The two outcomes of an evaluation: the command is zeroed and one line is
    logged, or the sampler and the estimator are called once each and the
    command is set from their results. *)
Lemma bezier_position_mode_cases (uptime_ms : Z) (ctx : context D) :
  (exists lvl fmt args,
      bezier_position_mode ext uptime_ms ctx =
      (b3rb_position_stop ctx, [Log lvl fmt args])) \/
  (exists t T PX PY x y psi V omega e0 e1 e2,
      bezier6_rover ext t T PX PY = (x, y, psi, V, omega) /\
      se2_error ext (vehicle_pose ext ctx) (x, y, psi) = (e0, e1, e2) /\
      bezier_position_mode ext uptime_ms ctx =
      (set_cmd_vel ctx
         (assign_linear_x_angular_z (cmd_vel ctx)
            (control_law_forward_speed (gain_along_track ctx) V e0)
            (control_law_turn_rate (gain_cross_track ctx) (gain_heading ctx) omega e1 e2)),
       [CallBezier6Rover t T PX PY; CallSe2Error (vehicle_pose ext ctx) (x, y, psi)])).
Proof.
  destruct (Z_lt_le_dec (current_time_nsec uptime_ms ctx)
              (BezierTrajectory.time_start (offboard_bezier_trajectory ctx)))
    as [Hearly | Hstart].
  { left. rewrite (bezier_position_mode_early ext uptime_ms ctx Hearly). eauto. }
  destruct (find_curve (atomic_get ctx) (offboard_bezier_trajectory ctx)
              (current_time_nsec uptime_ms ctx)
              (BezierTrajectory.time_start (offboard_bezier_trajectory ctx))
              (BezierTrajectory.time_start (offboard_bezier_trajectory ctx)) 0)
    as [|i ts te] eqn:Hfind.
  { left. rewrite (bezier_position_mode_return ext uptime_ms ctx Hstart Hfind). eauto. }
  right.
  destruct (bezier_position_mode_events ext uptime_ms ctx)
    as [(lvl & fmt & args & Hlog) | Htrack]; [|exact Htrack].
  exfalso.
  destruct (bezier6_rover ext
      (seconds_of_nsec (u64_sub (current_time_nsec uptime_ms ctx) ts))
      (seconds_of_nsec (u64_sub te ts))
      (copy6 (BezierCurve.x (curve_at (offboard_bezier_trajectory ctx) i)))
      (copy6 (BezierCurve.y (curve_at (offboard_bezier_trajectory ctx) i))))
    as [[[[x y] psi] V] omega] eqn:Hs.
  destruct (se2_error ext (vehicle_pose ext ctx) (x, y, psi)) as [[e0 e1] e2] eqn:He.
  rewrite (bezier_position_mode_leave ext uptime_ms ctx Hstart Hfind Hs He) in Hlog.
  discriminate Hlog.
Qed.

(** The four outcomes of an iteration of the loop. *)
Lemma b3rb_position_cycle_cases (inp : cycle_input D) (ctx : context D) :
  let ctx1 := update_subscriptions inp ctx in
  (k_poll_rc inp <> 0 /\
   b3rb_position_cycle ext inp ctx =
   (ctx, [Log LOG_DBG "pos not receiving estimator odometry" []])) \/
  (k_poll_rc inp = 0 /\
   Status.mode (status ctx1) <> synapse_msgs_Status_Mode_MODE_BEZIER ext /\
   b3rb_position_cycle ext inp ctx = (ctx1, [])) \/
  (k_poll_rc inp = 0 /\
   Status.mode (status ctx1) = synapse_msgs_Status_Mode_MODE_BEZIER ext /\
   exists lvl fmt args,
     bezier_position_mode ext (k_uptime inp) ctx1 =
       (b3rb_position_stop ctx1, [Log lvl fmt args]) /\
     b3rb_position_cycle ext inp ctx =
     (b3rb_position_stop ctx1,
      [Log lvl fmt args; PubUpdate (cmd_vel (b3rb_position_stop ctx1))])) \/
  (k_poll_rc inp = 0 /\
   Status.mode (status ctx1) = synapse_msgs_Status_Mode_MODE_BEZIER ext /\
   exists t T PX PY x y psi V omega e0 e1 e2,
     bezier6_rover ext t T PX PY = (x, y, psi, V, omega) /\
     se2_error ext (vehicle_pose ext ctx1) (x, y, psi) = (e0, e1, e2) /\
     bezier_position_mode ext (k_uptime inp) ctx1 =
       (set_cmd_vel ctx1
          (assign_linear_x_angular_z (cmd_vel ctx1)
             (control_law_forward_speed (gain_along_track ctx1) V e0)
             (control_law_turn_rate (gain_cross_track ctx1) (gain_heading ctx1)
                omega e1 e2)),
        [CallBezier6Rover t T PX PY; CallSe2Error (vehicle_pose ext ctx1) (x, y, psi)]) /\
     b3rb_position_cycle ext inp ctx =
     (set_cmd_vel ctx1
        (assign_linear_x_angular_z (cmd_vel ctx1)
           (control_law_forward_speed (gain_along_track ctx1) V e0)
           (control_law_turn_rate (gain_cross_track ctx1) (gain_heading ctx1)
              omega e1 e2)),
      [CallBezier6Rover t T PX PY; CallSe2Error (vehicle_pose ext ctx1) (x, y, psi);
       PubUpdate
         (assign_linear_x_angular_z (cmd_vel ctx1)
            (control_law_forward_speed (gain_along_track ctx1) V e0)
            (control_law_turn_rate (gain_cross_track ctx1) (gain_heading ctx1)
               omega e1 e2))])).
Proof.
  intros ctx1.
  destruct (Z.eq_dec (k_poll_rc inp) 0) as [Hrc | Hrc].
  2:{ left. split; [exact Hrc|]. apply b3rb_position_cycle_timeout. exact Hrc. }
  right.
  destruct (Z.eq_dec (Status.mode (status ctx1)) (synapse_msgs_Status_Mode_MODE_BEZIER ext))
    as [Hmode | Hmode].
  2:{ left. split; [exact Hrc|]. split; [exact Hmode|].
      apply b3rb_position_cycle_other_mode; assumption. }
  right.
  assert (Hcycle : b3rb_position_cycle ext inp ctx =
    (fst (bezier_position_mode ext (k_uptime inp) ctx1),
     snd (bezier_position_mode ext (k_uptime inp) ctx1)
       ++ [PubUpdate (cmd_vel (fst (bezier_position_mode ext (k_uptime inp) ctx1)))])).
  { unfold b3rb_position_cycle. rewrite Hrc. simpl negb. cbv iota.
    fold ctx1. apply Z.eqb_eq in Hmode. rewrite Hmode.
    destruct (bezier_position_mode ext (k_uptime inp) ctx1). reflexivity. }
  destruct (bezier_position_mode_cases (k_uptime inp) ctx1)
    as [(lvl & fmt & args & Heq)
       | (t & T & PX & PY & x & y & psi & V & omega & e0 & e1 & e2 & Hs & He & Heq)].
  - left. split; [exact Hrc|]. split; [exact Hmode|].
    exists lvl, fmt, args. split; [exact Heq|].
    rewrite Hcycle, Heq. reflexivity.
  - right. split; [exact Hrc|]. split; [exact Hmode|].
    exists t, T, PX, PY, x, y, psi, V, omega, e0, e1, e2.
    split; [exact Hs|]. split; [exact He|]. split; [exact Heq|].
    rewrite Hcycle, Heq. reflexivity.
Qed.

(** X1. An iteration of the loop never writes the running flag, the wheel
    base or the gains, and of the retained command it rewrites at most
    [linear.x] and [angular.z]: the two [has_] flags and the other four
    components stay as they were, whatever samples arrive. *)
Theorem b3rb_position_cycle_frame (inp : cycle_input D) (ctx : context D) :
  same_gains_and_flag ctx (fst (b3rb_position_cycle ext inp ctx)) /\
  only_speed_and_yaw_rate_differ (cmd_vel ctx)
    (cmd_vel (fst (b3rb_position_cycle ext inp ctx))).
Proof.
  pose proof (update_subscriptions_gains inp ctx) as Hg.
  pose proof (update_subscriptions_cmd_vel inp ctx) as Hc.
  destruct (b3rb_position_cycle_cases inp ctx)
    as [(_ & Heq) | [(_ & _ & Heq) | [(_ & _ & lvl & fmt & args & _ & Heq)
       | (_ & _ & t & T & PX & PY & x & y & psi & V & omega & e0 & e1 & e2
            & _ & _ & _ & Heq)]]];
    rewrite Heq; simpl fst.
  - split; [repeat split; reflexivity | apply only_speed_and_yaw_rate_differ_refl].
  - split; [exact Hg|]. rewrite Hc. apply only_speed_and_yaw_rate_differ_refl.
  - split; [exact Hg|]. unfold b3rb_position_stop. simpl cmd_vel. rewrite Hc.
    eexists _, _. reflexivity.
  - split; [exact Hg|]. simpl cmd_vel. rewrite Hc. eexists _, _. reflexivity.
Qed.

(** X2. An iteration publishes exactly when the wait returned 0 and the
    retained mode, after the updates of the iteration, is the tracking mode;
    it then publishes once, and what it publishes is the command it leaves
    in the context. *)
Theorem b3rb_position_cycle_publishes (inp : cycle_input D) (ctx : context D) :
  published (snd (b3rb_position_cycle ext inp ctx)) =
  if (k_poll_rc inp =? 0)
     && (Status.mode (status (update_subscriptions inp ctx))
           =? synapse_msgs_Status_Mode_MODE_BEZIER ext)
  then [cmd_vel (fst (b3rb_position_cycle ext inp ctx))]
  else [].
Proof.
  destruct (b3rb_position_cycle_cases inp ctx)
    as [(Hrc & Heq) | [(Hrc & Hmode & Heq) | [(Hrc & Hmode & lvl & fmt & args & _ & Heq)
       | (Hrc & Hmode & t & T & PX & PY & x & y & psi & V & omega & e0 & e1 & e2
            & _ & _ & _ & Heq)]]];
    rewrite Heq; simpl fst; simpl snd.
  - apply Z.eqb_neq in Hrc. rewrite Hrc. reflexivity.
  - apply Z.eqb_neq in Hmode. rewrite Hmode, andb_false_r. reflexivity.
  - apply Z.eqb_eq in Hmode. rewrite Hrc, Hmode. reflexivity.
  - apply Z.eqb_eq in Hmode. rewrite Hrc, Hmode. reflexivity.
Qed.

(** X3. An iteration calls the curve sampler at most once, calls the error
    estimator exactly as often as the sampler, and never calls either
    without publishing. *)
Theorem b3rb_position_cycle_call_counts (inp : cycle_input D) (ctx : context D) :
  let evs := snd (b3rb_position_cycle ext inp ctx) in
  (List.length (sampler_calls evs) <= 1)%nat /\
  List.length (estimator_calls evs) = List.length (sampler_calls evs) /\
  (List.length (sampler_calls evs) <= List.length (published evs))%nat.
Proof.
  destruct (b3rb_position_cycle_cases inp ctx)
    as [(_ & Heq) | [(_ & _ & Heq) | [(_ & _ & lvl & fmt & args & _ & Heq)
       | (_ & _ & t & T & PX & PY & x & y & psi & V & omega & e0 & e1 & e2
            & _ & _ & _ & Heq)]]];
    rewrite Heq; simpl; repeat split; lia.
Qed.

(** X4. The evaluation has no memory of the previous command: replacing the
    retained command by any other one changes neither the events of the
    evaluation nor the forward speed and yaw rate it leaves. *)
Theorem bezier_position_mode_memoryless (uptime_ms : Z) (ctx : context D)
    (c : Twist.t D) :
  let r := bezier_position_mode ext uptime_ms ctx in
  let r' := bezier_position_mode ext uptime_ms (set_cmd_vel ctx c) in
  snd r' = snd r /\
  Vector3.x (Twist.linear (cmd_vel (fst r'))) = Vector3.x (Twist.linear (cmd_vel (fst r))) /\
  Vector3.z (Twist.angular (cmd_vel (fst r'))) = Vector3.z (Twist.angular (cmd_vel (fst r))) /\
  fst r' = set_cmd_vel (fst r)
             (assign_linear_x_angular_z c
                (Vector3.x (Twist.linear (cmd_vel (fst r))))
                (Vector3.z (Twist.angular (cmd_vel (fst r))))).
Proof.
  cbv zeta. unfold bezier_position_mode, current_time_nsec, atomic_get. simpl.
  destruct (_ <? _); [repeat split; reflexivity|].
  destruct (find_curve _ _ _ _ _ _) as [|i ts te]; [repeat split; reflexivity|].
  destruct (bezier6_rover _ _ _ _ _) as [[[[x y] psi] V] omega].
  destruct (se2_error _ _ _) as [[e0 e1] e2].
  repeat split; reflexivity.
Qed.

End Shapes.

(** ** The search loop, continued *)

Section Search.

Context {D : Type} {ops : DoubleOps D}.
Variable ext : Externals D.

(** Among the first [n] stored segments either one is the first to end
    after [t], or all have ended. *)
Lemma first_segment_or_all_ended (tr : BezierTrajectory.t D) (t : Z) (n : nat) :
  (n <= BezierTrajectory.curves_count tr)%nat ->
  (exists i : nat, (i < n)%nat /\ first_segment_after tr t i) \/
  (forall j : nat, (j < n)%nat -> end_time tr j <= t).
Proof.
  induction n as [|n IH]; intros Hn.
  - right. intros j Hj. lia.
  - destruct IH as [(i & Hi & Hfirst) | Hall]; [lia | |].
    + left. exists i. split; [lia | exact Hfirst].
    + destruct (Z_lt_le_dec t (end_time tr n)) as [Hlt | Hge].
      * left. exists n. split; [lia|]. repeat split; [lia | exact Hlt | exact Hall].
      * right. intros j Hj.
        destruct (Nat.eq_dec j n) as [-> | Hne]; [exact Hge | apply Hall; lia].
Qed.

Lemma first_segment_after_unique (tr : BezierTrajectory.t D) (t : Z) (i j : nat) :
  first_segment_after tr t i -> first_segment_after tr t j -> i = j.
Proof.
  intros (Hi & Hti & Hbi) (Hj & Htj & Hbj).
  destruct (Nat.lt_trichotomy i j) as [Hlt | [Heq | Hgt]]; [|exact Heq|].
  - specialize (Hbj i Hlt). lia.
  - specialize (Hbi j Hgt). lia.
Qed.

(** The index with which the loop is left, started at [i0] with [k] more
    segments to go, is [i0] or lies between [i0] and the fill count. *)
Lemma find_curve_index_range (run : Z) (tr : BezierTrajectory.t D)
    (t ts te : Z) (k : nat) :
  forall i0 : nat,
    (BezierTrajectory.curves_count tr <= S i0 + k)%nat ->
    match find_curve run tr t ts te i0 with
    | SearchReturn => True
    | SearchLeave i _ _ =>
        i = i0 \/ (i0 < i /\ i < BezierTrajectory.curves_count tr)%nat
    end.
Proof.
  induction k as [|k IH]; intros i0 Hk; rewrite find_curve_eq;
    (destruct (run =? 0); [left; reflexivity|]);
    (destruct (t <? end_time tr i0); [left; reflexivity|]);
    destruct (BezierTrajectory.curves_count tr <=? S i0)%nat eqn:Hb;
    try exact I.
  - apply Nat.leb_gt in Hb. lia.
  - apply Nat.leb_gt in Hb.
    specialize (IH (S i0)).
    destruct (find_curve run tr t ts te (S i0)) as [|i ts' te']; [exact I|].
    destruct IH as [-> | [H1 H2]]; [lia | right; lia | right; lia].
Qed.

(** X5. With the running flag set and at least one stored segment, the
    search is exact for every trajectory, ordered or not: it leaves the loop
    at index [i] precisely when segment [i] is the first stored one that
    ends after the current time, then with the window of that segment, and
    it stops the vehicle precisely when every stored segment has ended. *)
Theorem find_curve_characterisation (run : Z) (tr : BezierTrajectory.t D) (t : Z) :
  run <> 0 ->
  (1 <= BezierTrajectory.curves_count tr)%nat ->
  (forall (i : nat) (ts te : Z),
      find_curve run tr t (BezierTrajectory.time_start tr)
        (BezierTrajectory.time_start tr) 0 = SearchLeave i ts te
      <->
      first_segment_after tr t i /\ ts = window_start tr i /\ te = end_time tr i) /\
  (find_curve run tr t (BezierTrajectory.time_start tr)
     (BezierTrajectory.time_start tr) 0 = SearchReturn
   <-> past_every_segment tr t).
Proof.
  intros Hrun Hcount.
  destruct (@first_segment_or_all_ended tr t (BezierTrajectory.curves_count tr) (le_n _))
    as [(i0 & _ & Hfirst) | Hall].
  - assert (Hfind :
      find_curve run tr t (BezierTrajectory.time_start tr)
        (BezierTrajectory.time_start tr) 0
      = SearchLeave i0 (window_start tr i0) (end_time tr i0)).
    { destruct Hfirst as (Hi & Hti & Hbefore).
      rewrite (@find_curve_breaks_at D ops run tr t
                 (BezierTrajectory.time_start tr) (BezierTrajectory.time_start tr)
                 i0 0%nat i0 Hrun eq_refl Hi Hti).
      - destruct i0 as [|i']; simpl; [reflexivity|].
        rewrite Nat.sub_0_r. reflexivity.
      - intros j _ Hj. apply Hbefore. exact Hj. }
    rewrite Hfind. split.
    + intros i ts te. split.
      * intros Heq. injection Heq as <- <- <-. repeat split; try reflexivity; apply Hfirst.
      * intros (Hi & -> & ->).
        rewrite (first_segment_after_unique Hi Hfirst). reflexivity.
    + split; [discriminate|].
      intros Hpast. destruct Hfirst as (Hi & Hti & _).
      specialize (Hpast i0 Hi). lia.
  - assert (Hfind :
      find_curve run tr t (BezierTrajectory.time_start tr)
        (BezierTrajectory.time_start tr) 0 = SearchReturn).
    { apply (@find_curve_runs_out D ops run tr t _ _
               (BezierTrajectory.curves_count tr) 0%nat Hrun).
      - lia.
      - apply Hall. lia.
      - intros j _ Hj. apply Hall. exact Hj. }
    rewrite Hfind. split.
    + intros i ts te. split; [discriminate|].
      intros ((Hi & Hti & _) & _). specialize (Hall i Hi). lia.
    + split; [intros _; exact Hall | reflexivity].
Qed.

(** X6. Whatever the flag, the times and the array hold, the index with
    which the search is left is 0 or lies below the fill count: the curve
    read after the loop is the first slot of the array or a stored one. *)
Theorem find_curve_index_in_bounds (run : Z) (tr : BezierTrajectory.t D) (t ts te : Z) :
  match find_curve run tr t ts te 0 with
  | SearchReturn => True
  | SearchLeave i _ _ => i = 0%nat \/ (i < BezierTrajectory.curves_count tr)%nat
  end.
Proof.
  pose proof (@find_curve_index_range run tr t ts te
                (BezierTrajectory.curves_count tr) 0%nat) as H.
  destruct (find_curve run tr t ts te 0) as [|i ts' te']; [exact I|].
  destruct H as [-> | [_ H]]; [lia | left; reflexivity | right; exact H].
Qed.

End Search.

(** ** Cycles in tracking mode *)

Section TrackingCycles.

Context {D : Type} {ops : DoubleOps D}.
Variable ext : Externals D.

Lemma copy6_firstn (a : list D) :
  (6 <= List.length a)%nat -> copy6 a = firstn 6 a.
Proof.
  intros H.
  do 6 (destruct a as [|? a]; [simpl in H; lia|]).
  reflexivity.
Qed.

Lemma sampler_calls_before_publication (evs : list (event D)) (c : Twist.t D) :
  sampler_calls (evs ++ [PubUpdate c]) = sampler_calls evs.
Proof.
  induction evs as [|e evs IH]; [reflexivity|].
  destruct e; simpl; rewrite IH; reflexivity.
Qed.

Lemma estimator_calls_before_publication (evs : list (event D)) (c : Twist.t D) :
  estimator_calls (evs ++ [PubUpdate c]) = estimator_calls evs.
Proof.
  induction evs as [|e evs IH]; [reflexivity|].
  destruct e; simpl; rewrite IH; reflexivity.
Qed.

(** An iteration in tracking mode is one evaluation followed by one
    publication of the command it leaves. *)
Lemma b3rb_position_cycle_tracking_mode (inp : cycle_input D) (ctx : context D) :
  let ctx1 := update_subscriptions inp ctx in
  k_poll_rc inp = 0 ->
  Status.mode (status ctx1) = synapse_msgs_Status_Mode_MODE_BEZIER ext ->
  b3rb_position_cycle ext inp ctx =
  (fst (bezier_position_mode ext (k_uptime inp) ctx1),
   snd (bezier_position_mode ext (k_uptime inp) ctx1)
     ++ [PubUpdate (cmd_vel (fst (bezier_position_mode ext (k_uptime inp) ctx1)))]).
Proof.
  intros ctx1 Hrc Hmode.
  unfold b3rb_position_cycle. rewrite Hrc. simpl negb. cbv iota.
  fold ctx1. apply Z.eqb_eq in Hmode. rewrite Hmode.
  destruct (bezier_position_mode ext (k_uptime inp) ctx1). reflexivity.
Qed.

(** The sampler calls of an iteration are those of its evaluation. *)
Lemma b3rb_position_cycle_sampler_calls (inp : cycle_input D) (ctx : context D) :
  incl (sampler_calls (snd (b3rb_position_cycle ext inp ctx)))
       (sampler_calls
          (snd (bezier_position_mode ext (k_uptime inp) (update_subscriptions inp ctx)))).
Proof.
  destruct (b3rb_position_cycle_cases ext inp ctx)
    as [(_ & Heq) | [(_ & _ & Heq) | [(Hrc & Hmode & _) | (Hrc & Hmode & _)]]].
  - rewrite Heq. intros a [].
  - rewrite Heq. intros a [].
  - rewrite (b3rb_position_cycle_tracking_mode inp ctx Hrc Hmode). simpl snd.
    rewrite sampler_calls_before_publication. apply incl_refl.
  - rewrite (b3rb_position_cycle_tracking_mode inp ctx Hrc Hmode). simpl snd.
    rewrite sampler_calls_before_publication. apply incl_refl.
Qed.

(** The window with which the loop is left fits [uint64_t] when the start
    time and the end times do. *)
Lemma find_curve_window_u64 (run : Z) (tr : BezierTrajectory.t D)
    (t ts0 te0 : Z) (k : nat) :
  forall (i0 i : nat) (ts te : Z),
    run <> 0 ->
    (BezierTrajectory.curves_count tr <= S i0 + k)%nat ->
    is_u64 ts0 ->
    (forall j : nat, is_u64 (end_time tr j)) ->
    find_curve run tr t ts0 te0 i0 = SearchLeave i ts te ->
    0 <= ts /\ te < two64.
Proof.
  induction k as [|k IH]; intros i0 i ts te Hrun Hk Hts0 Hend;
    rewrite find_curve_eq;
    pose proof Hrun as Hrun'; apply Z.eqb_neq in Hrun'; rewrite Hrun';
    (destruct (t <? end_time tr i0);
     [ intros Heq; injection Heq as _ <- <-;
       split; [destruct (0 <? i0)%nat; [apply Hend | apply Hts0] | apply Hend] |]);
    (destruct (BezierTrajectory.curves_count tr <=? S i0)%nat eqn:Hb; [discriminate|]);
    apply Nat.leb_gt in Hb.
  - lia.
  - intros Hf. apply (IH (S i0) i ts te Hrun); try assumption. lia.
Qed.

(** X7. While the running flag is set and the times of the retained
    trajectory fit [uint64_t], every call of the curve sampler made by an
    iteration is made on the window [ts, te) with which the search loop was
    left, and that window contains the current time: [0 <= ts <= t_now < te
    < 2^64].  Hence neither [uint64_t] subtraction wraps (each equals the
    plain difference), the duration [T] comes from the positive nanosecond
    count [te - ts] and the elapsed time [t] from the nanosecond count
    [t_now - ts], which is at least 0 and less than [te - ts]. *)
Theorem b3rb_position_cycle_sampler_domain (inp : cycle_input D) (ctx : context D)
    (t T : D) :
  let ctx1 := update_subscriptions inp ctx in
  let tr := offboard_bezier_trajectory ctx1 in
  let t_now := current_time_nsec (k_uptime inp) ctx1 in
  atomic_get ctx <> 0 ->
  is_u64 (BezierTrajectory.time_start tr) ->
  (forall i : nat, is_u64 (end_time tr i)) ->
  In (t, T) (sampler_calls (snd (b3rb_position_cycle ext inp ctx))) ->
  exists (i : nat) (ts te : Z),
    find_curve (atomic_get ctx1) tr t_now
      (BezierTrajectory.time_start tr) (BezierTrajectory.time_start tr) 0
      = SearchLeave i ts te /\
    0 <= ts /\ ts <= t_now /\ t_now < te /\ te < two64 /\
    u64_sub t_now ts = t_now - ts /\
    u64_sub te ts = te - ts /\
    0 <= t_now - ts /\ t_now - ts < te - ts /\
    t = seconds_of_nsec (u64_sub t_now ts) /\
    T = seconds_of_nsec (u64_sub te ts).
Proof.
  intros ctx1 tr t_now Hrun Hstart_u64 Hend_u64 Hin.
  apply b3rb_position_cycle_sampler_calls in Hin. fold ctx1 in Hin.
  assert (Hrun1 : atomic_get ctx1 <> 0).
  { unfold atomic_get, ctx1. rewrite update_subscriptions_running. exact Hrun. }
  destruct (Z_lt_le_dec t_now (BezierTrajectory.time_start tr)) as [Hearly | Hstart].
  { rewrite (bezier_position_mode_early ext (k_uptime inp) ctx1 Hearly) in Hin.
    destruct Hin. }
  destruct (find_curve (atomic_get ctx1) tr t_now
              (BezierTrajectory.time_start tr) (BezierTrajectory.time_start tr) 0)
    as [|i ts te] eqn:Hfind.
  { rewrite (bezier_position_mode_return ext (k_uptime inp) ctx1 Hstart Hfind) in Hin.
    destruct Hin. }
  rewrite (bezier_position_mode_leave_calls ext (k_uptime inp) ctx1 Hstart Hfind) in Hin.
  destruct Hin as [Heq | []]. injection Heq as <- <-.
  destruct (@find_curve_window D ops (atomic_get ctx1) tr t_now
              (BezierTrajectory.time_start tr) (BezierTrajectory.time_start tr)
              (BezierTrajectory.curves_count tr) 0%nat i ts te Hrun1)
    as (Hlo & Hhi & _); try assumption; try lia.
  destruct (@find_curve_window_u64 (atomic_get ctx1) tr t_now
              (BezierTrajectory.time_start tr) (BezierTrajectory.time_start tr)
              (BezierTrajectory.curves_count tr) 0%nat i ts te Hrun1)
    as (Hts & Hte); try assumption; try lia.
  exists i, ts, te.
  unfold u64_sub. rewrite !Z.mod_small by (unfold two64 in *; lia).
  repeat split; try reflexivity; lia.
Qed.

(** X8. With the running flag clear, an iteration in tracking mode whose
    current time has reached the start time of the trajectory never zeroes
    the command: it calls the sampler once, with the time elapsed since the
    start time and a duration of zero nanoseconds, and publishes the
    command computed from the result. *)
Theorem b3rb_position_cycle_flag_clear (inp : cycle_input D) (ctx : context D) :
  let ctx1 := update_subscriptions inp ctx in
  let tr := offboard_bezier_trajectory ctx1 in
  let t_now := current_time_nsec (k_uptime inp) ctx1 in
  k_poll_rc inp = 0 ->
  Status.mode (status ctx1) = synapse_msgs_Status_Mode_MODE_BEZIER ext ->
  atomic_get ctx = 0 ->
  BezierTrajectory.time_start tr <= t_now ->
  sampler_calls (snd (b3rb_position_cycle ext inp ctx)) =
    [(seconds_of_nsec (u64_sub t_now (BezierTrajectory.time_start tr)),
      seconds_of_nsec 0)] /\
  List.length (estimator_calls (snd (b3rb_position_cycle ext inp ctx))) = 1%nat /\
  published (snd (b3rb_position_cycle ext inp ctx)) =
    [cmd_vel (fst (b3rb_position_cycle ext inp ctx))].
Proof.
  intros ctx1 tr t_now Hrc Hmode Hrun Hstart.
  assert (Hrun1 : atomic_get ctx1 = 0).
  { unfold atomic_get, ctx1. rewrite update_subscriptions_running. exact Hrun. }
  pose proof (sampler_zero_duration_flag_clear ext (k_uptime inp) ctx1 Hrun1 Hstart)
    as Hcalls.
  rewrite (b3rb_position_cycle_tracking_mode inp ctx Hrc Hmode).
  fold ctx1. simpl fst; simpl snd.
  rewrite sampler_calls_before_publication, estimator_calls_before_publication.
  split; [exact Hcalls|].
  destruct (bezier_position_mode_cases ext (k_uptime inp) ctx1)
    as [(lvl & fmt & args & Heq)
       | (t & T & PX & PY & x & y & psi & V & omega & e0 & e1 & e2 & _ & _ & Heq)].
  - rewrite Heq in Hcalls. discriminate Hcalls.
  - rewrite Heq. split; reflexivity.
Qed.

(** X9. An iteration in tracking mode whose current time is out of the range
    of the trajectory (before its start time; or, with the running flag set
    and at least one stored segment, at or past the end of every stored
    segment) publishes the retained command with [linear.x] and [angular.z]
    set to zero, and calls neither the sampler nor the estimator. *)
Theorem b3rb_position_cycle_out_of_range (inp : cycle_input D) (ctx : context D) :
  let ctx1 := update_subscriptions inp ctx in
  let tr := offboard_bezier_trajectory ctx1 in
  let t_now := current_time_nsec (k_uptime inp) ctx1 in
  k_poll_rc inp = 0 ->
  Status.mode (status ctx1) = synapse_msgs_Status_Mode_MODE_BEZIER ext ->
  t_now < BezierTrajectory.time_start tr \/
  (atomic_get ctx <> 0 /\ (1 <= BezierTrajectory.curves_count tr)%nat /\
   past_every_segment tr t_now) ->
  published (snd (b3rb_position_cycle ext inp ctx)) =
    [assign_linear_x_angular_z (cmd_vel ctx) d_zero d_zero] /\
  sampler_calls (snd (b3rb_position_cycle ext inp ctx)) = [] /\
  estimator_calls (snd (b3rb_position_cycle ext inp ctx)) = [].
Proof.
  intros ctx1 tr t_now Hrc Hmode Hrange.
  assert (Hstop : exists lvl fmt args,
    bezier_position_mode ext (k_uptime inp) ctx1 =
    (b3rb_position_stop ctx1, [Log lvl fmt args])).
  { destruct (Z_lt_le_dec t_now (BezierTrajectory.time_start tr)) as [Hearly | Hstart].
    - rewrite (bezier_position_mode_early ext (k_uptime inp) ctx1 Hearly). eauto.
    - destruct Hrange as [Hearly | (Hrun & Hcount & Hpast)]; [lia|].
      rewrite (bezier_position_mode_return ext (k_uptime inp) ctx1 Hstart); [eauto|].
      apply (@find_curve_runs_out D ops (atomic_get ctx1) tr t_now _ _
               (BezierTrajectory.curves_count tr) 0%nat).
      + unfold atomic_get, ctx1. rewrite update_subscriptions_running. exact Hrun.
      + lia.
      + apply Hpast. lia.
      + intros j _ Hj. apply Hpast. exact Hj. }
  destruct Hstop as (lvl & fmt & args & Heq).
  rewrite (b3rb_position_cycle_tracking_mode inp ctx Hrc Hmode).
  fold ctx1. rewrite Heq. simpl.
  unfold ctx1. rewrite update_subscriptions_cmd_vel.
  repeat split; reflexivity.
Qed.

(** X10. The events of a tracking iteration, with the running flag set and
    segment [i] the first stored one ending after the current time, are, in
    this order: one call of the sampler on the window of segment [i] with
    the first six x and y control points of that segment; one call of the
    estimator on the retained position with heading [2 * atan2(z, w)] and on
    the sampled pose; one publication of the command of the control law. *)
Theorem b3rb_position_cycle_tracking_trace (inp : cycle_input D) (ctx : context D)
    (i : nat) (x y psi V omega e0 e1 e2 : D) :
  let ctx1 := update_subscriptions inp ctx in
  let tr := offboard_bezier_trajectory ctx1 in
  let t_now := current_time_nsec (k_uptime inp) ctx1 in
  let t := seconds_of_nsec (u64_sub t_now (window_start tr i)) in
  let T := seconds_of_nsec (u64_sub (end_time tr i) (window_start tr i)) in
  let PX := firstn 6 (BezierCurve.x (curve_at tr i)) in
  let PY := firstn 6 (BezierCurve.y (curve_at tr i)) in
  k_poll_rc inp = 0 ->
  Status.mode (status ctx1) = synapse_msgs_Status_Mode_MODE_BEZIER ext ->
  atomic_get ctx <> 0 ->
  BezierTrajectory.time_start tr <= t_now ->
  first_segment_after tr t_now i ->
  (6 <= List.length (BezierCurve.x (curve_at tr i)))%nat ->
  (6 <= List.length (BezierCurve.y (curve_at tr i)))%nat ->
  bezier6_rover ext t T PX PY = (x, y, psi, V, omega) ->
  se2_error ext (vehicle_pose ext ctx1) (x, y, psi) = (e0, e1, e2) ->
  snd (b3rb_position_cycle ext inp ctx) =
  [CallBezier6Rover t T PX PY;
   CallSe2Error (vehicle_pose ext ctx1) (x, y, psi);
   PubUpdate
     (assign_linear_x_angular_z (cmd_vel ctx)
        (control_law_forward_speed (gain_along_track ctx) V e0)
        (control_law_turn_rate (gain_cross_track ctx) (gain_heading ctx) omega e1 e2))].
Proof.
  intros ctx1 tr t_now t T PX PY Hrc Hmode Hrun Hstart Hfirst Hx Hy Hs He.
  assert (Hrun1 : atomic_get ctx1 <> 0).
  { unfold atomic_get, ctx1. rewrite update_subscriptions_running. exact Hrun. }
  assert (Hfind :
    find_curve (atomic_get ctx1) tr t_now
      (BezierTrajectory.time_start tr) (BezierTrajectory.time_start tr) 0
    = SearchLeave i (window_start tr i) (end_time tr i)).
  { destruct Hfirst as (Hi & Hti & Hbefore).
    rewrite (@find_curve_breaks_at D ops (atomic_get ctx1) tr t_now
               (BezierTrajectory.time_start tr) (BezierTrajectory.time_start tr)
               i 0%nat i Hrun1 eq_refl Hi Hti).
    - destruct i as [|i']; simpl; [reflexivity|].
      rewrite Nat.sub_0_r. reflexivity.
    - intros j _ Hj. apply Hbefore. exact Hj. }
  subst PX PY. rewrite <- (copy6_firstn _ Hx), <- (copy6_firstn _ Hy) in Hs |- *.
  rewrite (b3rb_position_cycle_tracking_mode inp ctx Hrc Hmode). fold ctx1.
  rewrite (bezier_position_mode_leave ext (k_uptime inp) ctx1 Hstart Hfind Hs He).
  simpl snd. simpl app. simpl cmd_vel.
  destruct (update_subscriptions_gains inp ctx) as (_ & Ha & Hc & Hh & _).
  unfold ctx1. rewrite Ha, Hc, Hh, update_subscriptions_cmd_vel.
  reflexivity.
Qed.

(** X16. The empty trajectory.  With the running flag set, no stored segment
    and the start time reached, the evaluation still reads the first slot
    of the array: it calls the sampler on the window from the start time to
    the end time of that slot when the current time is before that end
    time, and zeroes the command without any call otherwise (so it does
    when the slot is zeroed). *)
Theorem bezier_position_mode_empty_trajectory (uptime_ms : Z) (ctx : context D) :
  let tr := offboard_bezier_trajectory ctx in
  let t_now := current_time_nsec uptime_ms ctx in
  atomic_get ctx <> 0 ->
  BezierTrajectory.curves_count tr = 0%nat ->
  BezierTrajectory.time_start tr <= t_now ->
  sampler_calls (snd (bezier_position_mode ext uptime_ms ctx)) =
    (if t_now <? end_time tr 0
     then [(seconds_of_nsec (u64_sub t_now (BezierTrajectory.time_start tr)),
            seconds_of_nsec (u64_sub (end_time tr 0) (BezierTrajectory.time_start tr)))]
     else []) /\
  (end_time tr 0 <= t_now ->
   fst (bezier_position_mode ext uptime_ms ctx) = b3rb_position_stop ctx).
Proof.
  intros tr t_now Hrun Hcount Hstart.
  pose proof (@find_curve_eq D ops (atomic_get ctx) tr t_now
                (BezierTrajectory.time_start tr) (BezierTrajectory.time_start tr) 0%nat)
    as Hfind.
  apply Z.eqb_neq in Hrun. rewrite Hrun, Hcount in Hfind. simpl in Hfind.
  destruct (t_now <? end_time tr 0) eqn:Hlt.
  - split.
    + apply (bezier_position_mode_leave_calls ext uptime_ms ctx Hstart Hfind).
    + intros Hge. apply Z.ltb_lt in Hlt. lia.
  - rewrite (bezier_position_mode_return ext uptime_ms ctx Hstart Hfind).
    split; [reflexivity | intros _; reflexivity].
Qed.

End TrackingCycles.

(** ** The command handler and the schedules from start-up *)

Section Schedules.

Context {D : Type} {ops : DoubleOps D}.
Variable ext : Externals D.

(** The handler, case by case. *)
Lemma cmd_handler_cases (argc : Z) (argv : list string) (s : system D) :
  (argc <> 1 /\
   b3rb_position_cmd_handler argc argv s =
   (s, [Log LOG_ERR "must have one argument" []], -1)) \/
  (argc = 1 /\ nth 0 argv "" = "start" /\ atomic_get (sys_ctx s) <> 0 /\
   b3rb_position_cmd_handler argc argv s = (s, [ShellPrint "already running" []], 0)) \/
  (argc = 1 /\ nth 0 argv "" = "start" /\ atomic_get (sys_ctx s) = 0 /\
   b3rb_position_cmd_handler argc argv s =
   (mk_system (sys_ctx s) (sys_threads s ++ [ThreadReady]), [ThreadCreate], 0)) \/
  (argc = 1 /\ nth 0 argv "" = "stop" /\ atomic_get (sys_ctx s) <> 0 /\
   b3rb_position_cmd_handler argc argv s =
   (mk_system (atomic_set (sys_ctx s) 0) (sys_threads s), [], 0)) \/
  (argc = 1 /\ nth 0 argv "" = "stop" /\ atomic_get (sys_ctx s) = 0 /\
   b3rb_position_cmd_handler argc argv s = (s, [ShellPrint "not running" []], 0)) \/
  (argc = 1 /\ nth 0 argv "" = "status" /\
   b3rb_position_cmd_handler argc argv s =
   (s, [ShellPrint "running: %d" [atomic_get (sys_ctx s)]], 0)) \/
  (argc = 1 /\ unknown_subcommand (nth 0 argv "") /\
   b3rb_position_cmd_handler argc argv s = (s, [], 0)).
Proof.
  unfold b3rb_position_cmd_handler, unknown_subcommand.
  destruct (Z.eqb_spec argc 1) as [Hargc | Hargc]; simpl negb; cbv iota.
  2:{ left. split; [exact Hargc | reflexivity]. }
  right.
  destruct (String.eqb_spec (nth 0 argv "") "start") as [Hstart | Hstart].
  { destruct (Z.eqb_spec (atomic_get (sys_ctx s)) 0) as [Hrun | Hrun]; simpl negb; cbv iota.
    - right. left. repeat split; assumption.
    - left. repeat split; assumption. }
  do 2 right.
  destruct (String.eqb_spec (nth 0 argv "") "stop") as [Hstop | Hstop].
  { destruct (Z.eqb_spec (atomic_get (sys_ctx s)) 0) as [Hrun | Hrun]; simpl negb; cbv iota.
    - right. left. repeat split; assumption.
    - left. repeat split; assumption. }
  do 2 right.
  destruct (String.eqb_spec (nth 0 argv "") "status") as [Hstatus | Hstatus].
  - left. repeat split; assumption.
  - right. repeat split; assumption.
Qed.

Lemma published_app (evs evs' : list (event D)) :
  published (evs ++ evs') = published evs ++ published evs'.
Proof.
  induction evs as [|e evs IH]; [reflexivity|].
  destruct e; simpl; rewrite IH; reflexivity.
Qed.

Lemma Forall_set_nth {A : Type} (P : A -> Prop) (a : A) (l : list A) :
  forall n : nat, Forall P l -> P a -> Forall P (set_nth n a l).
Proof.
  induction l as [|b l IH]; intros [|n] Hl Ha; simpl; try exact Hl.
  - inversion Hl; subst. constructor; assumption.
  - inversion Hl; subst. constructor; [assumption | apply IH; assumption].
Qed.

(** What an iteration keeps, and what it publishes. *)
Lemma b3rb_position_cycle_keeps (inp : cycle_input D) (ctx : context D) :
  same_gains_and_flag ctx (fst (b3rb_position_cycle ext inp ctx)) /\
  only_speed_and_yaw_rate_differ (cmd_vel ctx)
    (cmd_vel (fst (b3rb_position_cycle ext inp ctx))) /\
  (forall c : Twist.t D,
      In c (published (snd (b3rb_position_cycle ext inp ctx))) ->
      c = cmd_vel (fst (b3rb_position_cycle ext inp ctx))).
Proof.
  pose proof (update_subscriptions_gains inp ctx) as Hg.
  pose proof (update_subscriptions_cmd_vel inp ctx) as Hc.
  destruct (b3rb_position_cycle_cases ext inp ctx)
    as [(_ & Heq) | [(_ & _ & Heq) | [(_ & _ & lvl & fmt & args & _ & Heq)
       | (_ & _ & t & T & PX & PY & x & y & psi & V & omega & e0 & e1 & e2
            & _ & _ & _ & Heq)]]];
    rewrite Heq; simpl fst; simpl snd.
  - split; [repeat split; reflexivity|].
    split; [apply only_speed_and_yaw_rate_differ_refl | intros c []].
  - split; [exact Hg|]. rewrite Hc.
    split; [apply only_speed_and_yaw_rate_differ_refl | intros c []].
  - split; [exact Hg|]. unfold b3rb_position_stop. simpl cmd_vel. rewrite Hc.
    split; [eexists _, _; reflexivity|].
    intros c [Hin | []]. symmetry. exact Hin.
  - split; [exact Hg|]. simpl cmd_vel. rewrite Hc.
    split; [eexists _, _; reflexivity|].
    intros c [Hin | []]. symmetry. exact Hin.
Qed.

Lemma only_speed_and_yaw_rate_differ_trans (c0 c1 c2 : Twist.t D) :
  only_speed_and_yaw_rate_differ c0 c1 ->
  only_speed_and_yaw_rate_differ c1 c2 ->
  only_speed_and_yaw_rate_differ c0 c2.
Proof.
  intros (a & b & ->) (a' & b' & ->). exists a', b'. apply assign_absorbs.
Qed.

Lemma boot_invariant_boot (cfg : build_config) : boot_invariant cfg (boot cfg).
Proof.
  unfold boot_invariant, boot. simpl.
  split; [left; reflexivity|].
  repeat (split; [reflexivity|]).
  split; [apply only_speed_and_yaw_rate_differ_refl|].
  constructor; [discriminate | constructor].
Qed.

(** Every step keeps the invariant, and publishes only commands that differ
    from the static initialiser in [linear.x] and [angular.z] at most. *)
Lemma boot_invariant_step (cfg : build_config) (a : action D) (s : system D) :
  boot_invariant cfg s ->
  boot_invariant cfg (fst (step ext a s)) /\
  (forall c : Twist.t D,
      In c (published (snd (step ext a s))) ->
      only_speed_and_yaw_rate_differ (cmd_vel (g_ctx cfg)) c).
Proof.
  intros (Hflag & Hw & Ha & Hc & Hh & Hcmd & Hth).
  destruct a as [argc argv | tid inp]; simpl.
  - destruct (cmd_handler_cases argc argv s)
      as [(_ & Heq) | [(_ & _ & _ & Heq) | [(_ & _ & _ & Heq) | [(_ & _ & _ & Heq)
         | [(_ & _ & _ & Heq) | [(_ & _ & Heq) | (_ & _ & Heq)]]]]]];
      rewrite Heq; simpl; (split; [|intros c []]);
      try (repeat split; assumption).
    + repeat split; try assumption.
      apply Forall_app. split; [assumption|]. constructor; [discriminate|constructor].
    + split; [left; reflexivity|]. repeat split; assumption.
  - destruct (nth_error (sys_threads s) tid) as [th|] eqn:Hnth.
    2:{ simpl. split; [repeat split; assumption | intros c []]. }
    destruct th.
    + simpl. split; [|intros c []].
      split; [right; reflexivity|].
      repeat (split; [assumption|]).
      apply Forall_set_nth; [assumption | discriminate].
    + rewrite b3rb_position_run_step_in_loop.
      cbv beta iota. cbn [fst snd]. unfold boot_invariant. cbn [sys_ctx sys_threads].
      destruct (b3rb_position_cycle_keeps inp (sys_ctx s))
        as ((Hw' & Ha' & Hc' & Hh' & Hr') & Hcmd' & Hpub).
      assert (Hcmd'' : only_speed_and_yaw_rate_differ (cmd_vel (g_ctx cfg))
                         (cmd_vel (fst (b3rb_position_cycle ext inp (sys_ctx s)))))
        by (eapply only_speed_and_yaw_rate_differ_trans; eassumption).
      split.
      * split; [rewrite Hr'; exact Hflag|].
        split; [rewrite Hw'; exact Hw|].
        split; [rewrite Ha'; exact Ha|].
        split; [rewrite Hc'; exact Hc|].
        split; [rewrite Hh'; exact Hh|].
        split; [exact Hcmd''|].
        apply Forall_set_nth; [assumption | discriminate].
      * intros c Hin. rewrite (Hpub c Hin). exact Hcmd''.
    + exfalso. apply nth_error_In in Hnth.
      rewrite Forall_forall in Hth. exact (Hth _ Hnth eq_refl).
Qed.

Lemma boot_invariant_run (cfg : build_config) (acts : list (action D)) :
  forall s : system D,
    boot_invariant cfg s ->
    boot_invariant cfg (fst (run_system ext acts s)) /\
    (forall c : Twist.t D,
        In c (published (snd (run_system ext acts s))) ->
        only_speed_and_yaw_rate_differ (cmd_vel (g_ctx cfg)) c).
Proof.
  induction acts as [|a acts IH]; intros s Hinv; simpl.
  - split; [exact Hinv | intros c []].
  - destruct (@boot_invariant_step cfg a s Hinv) as (Hinv1 & Hpub1).
    destruct (step ext a s) as [s1 evs1]. simpl in Hinv1, Hpub1.
    destruct (IH s1 Hinv1) as (Hinv2 & Hpub2).
    destruct (run_system ext acts s1) as [s2 evs2]. simpl in *.
    split; [exact Hinv2|].
    intros c Hin. rewrite published_app in Hin.
    apply in_app_or in Hin. destruct Hin; auto.
Qed.

(** X11. The handler returns -1 exactly when the argument count is not one;
    with one argument that is none of [start], [stop], [status] it returns 0
    silently: nothing is printed or logged and nothing changes. *)
Theorem cmd_handler_return_code (argc : Z) (argv : list string) (s : system D) :
  snd (b3rb_position_cmd_handler argc argv s) = (if argc =? 1 then 0 else -1) /\
  (argc = 1 -> unknown_subcommand (nth 0 argv "") ->
   b3rb_position_cmd_handler argc argv s = (s, [], 0)).
Proof.
  destruct (cmd_handler_cases argc argv s)
    as [(Hargc & Heq) | [(Hargc & H0 & _ & Heq) | [(Hargc & H0 & _ & Heq)
       | [(Hargc & H0 & _ & Heq) | [(Hargc & H0 & _ & Heq) | [(Hargc & H0 & Heq)
       | (Hargc & H0 & Heq)]]]]]];
    rewrite Heq; simpl snd;
    try (apply Z.eqb_neq in Hargc; rewrite Hargc; split; [reflexivity|];
         apply Z.eqb_neq in Hargc; intros; contradiction);
    subst argc; (split; [reflexivity|]);
    intros _ (Hs1 & Hs2 & Hs3); try reflexivity; congruence.
Qed.

(** X12. The handler never publishes a command and never calls the sampler;
    of the context it changes nothing but the running flag, which only
    [stop] clears: in particular [stop] leaves the retained velocity command
    as it was.  A thread is created exactly by [start] with the flag
    clear, and then exactly one. *)
Theorem cmd_handler_frame (argc : Z) (argv : list string) (s : system D) :
  let s' := fst (fst (b3rb_position_cmd_handler argc argv s)) in
  let evs := snd (fst (b3rb_position_cmd_handler argc argv s)) in
  published evs = [] /\
  sampler_calls evs = [] /\
  cmd_vel (sys_ctx s') = cmd_vel (sys_ctx s) /\
  sys_ctx s' =
    (if (argc =? 1) && (nth 0 argv "" =? "stop")%string
        && negb (atomic_get (sys_ctx s) =? 0)
     then atomic_set (sys_ctx s) 0 else sys_ctx s) /\
  sys_threads s' =
    sys_threads s ++
    (if (argc =? 1) && (nth 0 argv "" =? "start")%string
        && (atomic_get (sys_ctx s) =? 0)
     then [ThreadReady] else []).
Proof.
  cbv zeta.
  destruct (cmd_handler_cases argc argv s)
    as [(Hargc & Heq) | [(Hargc & H0 & Hrun & Heq) | [(Hargc & H0 & Hrun & Heq)
       | [(Hargc & H0 & Hrun & Heq) | [(Hargc & H0 & Hrun & Heq) | [(Hargc & H0 & Heq)
       | (Hargc & (Hs1 & Hs2 & Hs3) & Heq)]]]]]];
    rewrite Heq; simpl fst; simpl snd; simpl published; simpl sampler_calls;
    try (apply Z.eqb_neq in Hargc; rewrite Hargc; simpl;
         rewrite app_nil_r; repeat split; reflexivity);
    subst argc; try rewrite H0; simpl "&&";
    try (apply Z.eqb_neq in Hrun; rewrite Hrun);
    try (apply Z.eqb_eq in Hrun; rewrite Hrun);
    try (apply String.eqb_neq in Hs1; rewrite Hs1);
    try (apply String.eqb_neq in Hs2; rewrite Hs2);
    simpl; try rewrite app_nil_r; repeat split; reflexivity.
Qed.

(** X13. [start] issued after [stop] is accepted although the worker is
    still inside its loop: the handler creates a thread instead of printing
    "already running". *)
Theorem start_after_stop_creates_thread (s : system D) (tid : nat) :
  nth_error (sys_threads s) tid = Some ThreadInLoop ->
  atomic_get (sys_ctx s) <> 0 ->
  let s1 := fst (step ext (ShellCommand 1 ["stop"]) s) in
  nth_error (sys_threads s1) tid = Some ThreadInLoop /\
  b3rb_position_cmd_handler 1 ["start"] s1 =
    (mk_system (sys_ctx s1) (sys_threads s ++ [ThreadReady]), [ThreadCreate], 0).
Proof.
  intros Hth Hrun s1.
  assert (Hs1 : s1 = mk_system (atomic_set (sys_ctx s) 0) (sys_threads s)).
  { subst s1. unfold step. rewrite (cmd_handler_stop_running s Hrun). reflexivity. }
  rewrite Hs1. split; [exact Hth | reflexivity].
Qed.

(** X14. Under every schedule from start-up, every published command is the
    static initialiser of [cmd_vel] with [linear.x] and [angular.z]
    rewritten: [has_linear] and [has_angular] are true and the other four
    components keep their initial values. *)
Theorem published_commands_from_boot (cfg : build_config) (acts : list (action D))
    (c : Twist.t D) :
  In c (published (snd (run_system ext acts (boot cfg)))) ->
  only_speed_and_yaw_rate_differ (cmd_vel (g_ctx cfg)) c /\
  Twist.has_linear c = true /\
  Twist.has_angular c = true /\
  Vector3.y (Twist.linear c) = Vector3.y Vector3_init_default /\
  Vector3.z (Twist.linear c) = Vector3.z Vector3_init_default /\
  Vector3.x (Twist.angular c) = Vector3.x Vector3_init_default /\
  Vector3.y (Twist.angular c) = Vector3.y Vector3_init_default.
Proof.
  intros Hin.
  destruct (@boot_invariant_run cfg acts (boot cfg) (boot_invariant_boot cfg)) as (_ & Hpub).
  pose proof (Hpub c Hin) as Hc. split; [exact Hc|].
  destruct Hc as (vx & wz & ->). repeat split; reflexivity.
Qed.

(** X15. Under every schedule from start-up, no thread ever gets past the
    loop ([b3rb_position_fini] is never run), the running flag is 0 or 1,
    and the wheel base and the three gains are the configured ones. *)
Theorem reachable_states_from_boot (cfg : build_config) (acts : list (action D)) :
  let s := fst (run_system ext acts (boot cfg)) in
  Forall (fun th : thread_state => th <> ThreadDone) (sys_threads s) /\
  (atomic_get (sys_ctx s) = 0 \/ atomic_get (sys_ctx s) = 1) /\
  wheel_base (sys_ctx s) = wheel_base (g_ctx cfg) /\
  gain_along_track (sys_ctx s) = gain_along_track (g_ctx cfg) /\
  gain_cross_track (sys_ctx s) = gain_cross_track (g_ctx cfg) /\
  gain_heading (sys_ctx s) = gain_heading (g_ctx cfg).
Proof.
  destruct (@boot_invariant_run cfg acts (boot cfg) (boot_invariant_boot cfg))
    as ((Hflag & Hw & Ha & Hc & Hh & _ & Hth) & _).
  cbv zeta. repeat split; assumption.
Qed.

End Schedules.

(** * Further concrete runs in binary64 *)

Module MoreRuns.

Import Bench.

Lemma tracking_ctx_running : atomic_get tracking_ctx <> 0.
Proof. simpl. lia. Qed.

Lemma tracking_ctx_started_at_4s :
  BezierTrajectory.time_start (offboard_bezier_trajectory tracking_ctx)
    <= current_time_nsec 4000 tracking_ctx.
Proof. apply Z.leb_le. vm_compute. reflexivity. Qed.

Lemma trajectory_times_u64 : forall i : nat, is_u64 (end_time trajectory i).
Proof.
  intros i. do 5 (try destruct i as [|i]);
    (split; [apply Z.leb_le | apply Z.ltb_lt]); reflexivity.
Qed.

Lemma find_curve_characterisation_witness :
  1 <> 0 /\
  (1 <= BezierTrajectory.curves_count trajectory)%nat /\
  find_curve 1 trajectory (current_time_nsec 4000 tracking_ctx)
    (BezierTrajectory.time_start trajectory) (BezierTrajectory.time_start trajectory) 0
    = SearchLeave 1 3000000000 6000000000 /\
  ~ past_every_segment trajectory (current_time_nsec 4000 tracking_ctx).
Proof.
  assert (Hrun : 1 <> 0) by lia.
  assert (Hcount : (1 <= BezierTrajectory.curves_count trajectory)%nat) by (simpl; lia).
  split; [exact Hrun|]. split; [exact Hcount|].
  destruct (@find_curve_characterisation float binary64 1 trajectory
              (current_time_nsec 4000 tracking_ctx) Hrun Hcount) as (Hleave & Hreturn).
  assert (Hfind :
    find_curve 1 trajectory (current_time_nsec 4000 tracking_ctx)
      (BezierTrajectory.time_start trajectory) (BezierTrajectory.time_start trajectory) 0
    = SearchLeave 1 3000000000 6000000000).
  { apply Hleave. split; [exact Runs.trajectory_first_after_4s|].
    split; reflexivity. }
  split; [exact Hfind|].
  intros Hpast. apply Hreturn in Hpast. rewrite Hfind in Hpast. discriminate Hpast.
Defined.

Lemma b3rb_position_cycle_sampler_domain_witness :
  atomic_get tracking_ctx <> 0 /\
  is_u64 (BezierTrajectory.time_start
            (offboard_bezier_trajectory
               (update_subscriptions (pose_event 4000) tracking_ctx))) /\
  (forall i : nat,
      is_u64 (end_time (offboard_bezier_trajectory
                          (update_subscriptions (pose_event 4000) tracking_ctx)) i)) /\
  In (1%float, 3%float)
     (sampler_calls (snd (b3rb_position_cycle probe (pose_event 4000) tracking_ctx))) /\
  exists (i : nat) (ts te : Z),
    find_curve (atomic_get (update_subscriptions (pose_event 4000) tracking_ctx))
      (offboard_bezier_trajectory (update_subscriptions (pose_event 4000) tracking_ctx))
      (current_time_nsec 4000 (update_subscriptions (pose_event 4000) tracking_ctx))
      1000000000 1000000000 0
      = SearchLeave i ts te /\
    0 <= ts /\
    ts <= current_time_nsec 4000 (update_subscriptions (pose_event 4000) tracking_ctx) /\
    current_time_nsec 4000 (update_subscriptions (pose_event 4000) tracking_ctx) < te /\
    te < two64 /\
    u64_sub (current_time_nsec 4000 (update_subscriptions (pose_event 4000) tracking_ctx)) ts
      = current_time_nsec 4000 (update_subscriptions (pose_event 4000) tracking_ctx) - ts /\
    u64_sub te ts = te - ts /\
    0 <= current_time_nsec 4000 (update_subscriptions (pose_event 4000) tracking_ctx) - ts /\
    current_time_nsec 4000 (update_subscriptions (pose_event 4000) tracking_ctx) - ts
      < te - ts /\
    1%float = seconds_of_nsec
                (u64_sub (current_time_nsec 4000
                            (update_subscriptions (pose_event 4000) tracking_ctx)) ts) /\
    3%float = seconds_of_nsec (u64_sub te ts).
Proof.
  assert (Hstart :
    is_u64 (BezierTrajectory.time_start
              (offboard_bezier_trajectory
                 (update_subscriptions (pose_event 4000) tracking_ctx))))
    by (split; [apply Z.leb_le | apply Z.ltb_lt]; reflexivity).
  assert (Hin :
    In (1%float, 3%float)
       (sampler_calls (snd (b3rb_position_cycle probe (pose_event 4000) tracking_ctx))))
    by (vm_compute; left; reflexivity).
  split; [exact tracking_ctx_running|]. split; [exact Hstart|].
  split; [exact trajectory_times_u64|]. split; [exact Hin|].
  exact (b3rb_position_cycle_sampler_domain probe (pose_event 4000) tracking_ctx
           1%float 3%float tracking_ctx_running Hstart trajectory_times_u64 Hin).
Defined.

Lemma b3rb_position_cycle_flag_clear_witness :
  k_poll_rc (pose_event 4000) = 0 /\
  Status.mode (status (update_subscriptions (pose_event 4000) halted_ctx))
    = synapse_msgs_Status_Mode_MODE_BEZIER probe /\
  atomic_get halted_ctx = 0 /\
  BezierTrajectory.time_start
    (offboard_bezier_trajectory (update_subscriptions (pose_event 4000) halted_ctx))
    <= current_time_nsec 4000 (update_subscriptions (pose_event 4000) halted_ctx) /\
  sampler_calls (snd (b3rb_position_cycle probe (pose_event 4000) halted_ctx))
    = [(3%float, 0%float)].
Proof.
  assert (Hrc : k_poll_rc (pose_event 4000) = 0) by reflexivity.
  assert (Hmode :
    Status.mode (status (update_subscriptions (pose_event 4000) halted_ctx))
      = synapse_msgs_Status_Mode_MODE_BEZIER probe) by reflexivity.
  assert (Hrun : atomic_get halted_ctx = 0) by reflexivity.
  assert (Hstart :
    BezierTrajectory.time_start
      (offboard_bezier_trajectory (update_subscriptions (pose_event 4000) halted_ctx))
      <= current_time_nsec 4000 (update_subscriptions (pose_event 4000) halted_ctx))
    by (apply Z.leb_le; vm_compute; reflexivity).
  split; [exact Hrc|]. split; [exact Hmode|]. split; [exact Hrun|].
  split; [exact Hstart|].
  exact (proj1 (b3rb_position_cycle_flag_clear probe (pose_event 4000) halted_ctx
                  Hrc Hmode Hrun Hstart)).
Defined.

Lemma b3rb_position_cycle_out_of_range_witness :
  k_poll_rc early_event = 0 /\
  Status.mode (status (update_subscriptions early_event tracking_ctx))
    = synapse_msgs_Status_Mode_MODE_BEZIER probe /\
  current_time_nsec (k_uptime early_event) (update_subscriptions early_event tracking_ctx)
    < BezierTrajectory.time_start
        (offboard_bezier_trajectory (update_subscriptions early_event tracking_ctx)) /\
  published (snd (b3rb_position_cycle probe early_event tracking_ctx))
    = [assign_linear_x_angular_z (cmd_vel tracking_ctx) 0%float 0%float] /\
  sampler_calls (snd (b3rb_position_cycle probe early_event tracking_ctx)) = [].
Proof.
  assert (Hrc : k_poll_rc early_event = 0) by reflexivity.
  assert (Hmode :
    Status.mode (status (update_subscriptions early_event tracking_ctx))
      = synapse_msgs_Status_Mode_MODE_BEZIER probe) by reflexivity.
  assert (Hearly :
    current_time_nsec (k_uptime early_event) (update_subscriptions early_event tracking_ctx)
      < BezierTrajectory.time_start
          (offboard_bezier_trajectory (update_subscriptions early_event tracking_ctx)))
    by (apply Z.ltb_lt; vm_compute; reflexivity).
  split; [exact Hrc|]. split; [exact Hmode|]. split; [exact Hearly|].
  destruct (b3rb_position_cycle_out_of_range probe early_event tracking_ctx
              Hrc Hmode (or_introl Hearly)) as (Hpub & Hcalls & _).
  split; [exact Hpub | exact Hcalls].
Defined.

Lemma b3rb_position_cycle_tracking_trace_witness :
  k_poll_rc (pose_event 4000) = 0 /\
  atomic_get tracking_ctx <> 0 /\
  first_segment_after
    (offboard_bezier_trajectory (update_subscriptions (pose_event 4000) tracking_ctx))
    (current_time_nsec 4000 (update_subscriptions (pose_event 4000) tracking_ctx)) 1 /\
  snd (b3rb_position_cycle probe (pose_event 4000) tracking_ctx) =
  [CallBezier6Rover 1%float 3%float
     (map float_of_Z [5; 6; 7; 8; 9; 10]) (repeat 0%float 6);
   CallSe2Error (0%float, 0%float, 0%float) (5%float, 0%float, 0%float);
   PubUpdate tracked_command].
Proof.
  assert (Hrc : k_poll_rc (pose_event 4000) = 0) by reflexivity.
  assert (Hmode :
    Status.mode (status (update_subscriptions (pose_event 4000) tracking_ctx))
      = synapse_msgs_Status_Mode_MODE_BEZIER probe) by reflexivity.
  split; [exact Hrc|]. split; [exact tracking_ctx_running|].
  split; [exact Runs.trajectory_first_after_4s|].
  assert (Hx : (6 <= List.length (BezierCurve.x (curve_at trajectory 1)))%nat)
    by (simpl; lia).
  assert (Hy : (6 <= List.length (BezierCurve.y (curve_at trajectory 1)))%nat)
    by (simpl; lia).
  assert (Hs :
    bezier6_rover probe 1%float 3%float
      (map float_of_Z [5; 6; 7; 8; 9; 10]) (repeat 0%float 6)
    = (5%float, 0%float, 0%float, 3%float, 1%float))
    by (vm_compute; reflexivity).
  assert (He :
    se2_error probe (0%float, 0%float, 0%float) (5%float, 0%float, 0%float)
    = ((-5)%float, 0%float, 0%float))
    by (vm_compute; reflexivity).
  exact (b3rb_position_cycle_tracking_trace probe (pose_event 4000) tracking_ctx
           (i := 1%nat) Hrc Hmode tracking_ctx_running tracking_ctx_started_at_4s
           Runs.trajectory_first_after_4s Hx Hy Hs He).
Defined.

Lemma cmd_handler_return_code_witness :
  1 = 1 /\
  unknown_subcommand (nth 0 ["restart"] "") /\
  b3rb_position_cmd_handler 1 ["restart"] running_system = (running_system, [], 0) /\
  snd (b3rb_position_cmd_handler 3 ["start"; "a"; "b"] running_system) = -1.
Proof.
  assert (Hunknown : unknown_subcommand (nth 0 ["restart"] ""))
    by (repeat split; intros H; discriminate H).
  split; [reflexivity|]. split; [exact Hunknown|].
  split.
  - exact (proj2 (cmd_handler_return_code 1 ["restart"] running_system)
             eq_refl Hunknown).
  - exact (proj1 (cmd_handler_return_code 3 ["start"; "a"; "b"] running_system)).
Defined.

Lemma start_after_stop_creates_thread_witness :
  nth_error (sys_threads running_system) 0 = Some ThreadInLoop /\
  atomic_get (sys_ctx running_system) <> 0 /\
  snd (fst (b3rb_position_cmd_handler 1 ["start"]
              (fst (step probe (ShellCommand 1 ["stop"]) running_system))))
    = [ThreadCreate] /\
  nth_error
    (sys_threads (fst (step probe (ShellCommand 1 ["stop"]) running_system))) 0
    = Some ThreadInLoop.
Proof.
  assert (Hth : nth_error (sys_threads running_system) 0 = Some ThreadInLoop)
    by reflexivity.
  split; [exact Hth|]. split; [exact tracking_ctx_running|].
  destruct (start_after_stop_creates_thread probe running_system 0
              Hth tracking_ctx_running) as (Hloop & Hstart).
  split; [rewrite Hstart; reflexivity | exact Hloop].
Defined.

Lemma published_commands_from_boot_witness :
  In tracked_command (published (snd (run_system probe init_then_track (boot cfg)))) /\
  Twist.has_linear tracked_command = true /\
  Twist.has_angular tracked_command = true.
Proof.
  assert (Hin :
    In tracked_command (published (snd (run_system probe init_then_track (boot cfg)))))
    by (vm_compute; left; reflexivity).
  split; [exact Hin|].
  destruct (published_commands_from_boot probe cfg init_then_track tracked_command Hin)
    as (_ & Hl & Ha & _).
  split; [exact Hl | exact Ha].
Defined.

Lemma bezier_position_mode_empty_trajectory_witness :
  atomic_get (set_offboard_bezier_trajectory tracking_ctx emptied_trajectory) <> 0 /\
  BezierTrajectory.curves_count
    (offboard_bezier_trajectory
       (set_offboard_bezier_trajectory tracking_ctx emptied_trajectory)) = 0%nat /\
  BezierTrajectory.time_start
    (offboard_bezier_trajectory
       (set_offboard_bezier_trajectory tracking_ctx emptied_trajectory))
    <= current_time_nsec 7000
         (set_offboard_bezier_trajectory tracking_ctx emptied_trajectory) /\
  sampler_calls
    (snd (bezier_position_mode probe 7000
            (set_offboard_bezier_trajectory tracking_ctx emptied_trajectory)))
    = [(6%float, 8%float)].
Proof.
  assert (Hrun :
    atomic_get (set_offboard_bezier_trajectory tracking_ctx emptied_trajectory) <> 0)
    by (simpl; lia).
  assert (Hstart :
    BezierTrajectory.time_start
      (offboard_bezier_trajectory
         (set_offboard_bezier_trajectory tracking_ctx emptied_trajectory))
      <= current_time_nsec 7000
           (set_offboard_bezier_trajectory tracking_ctx emptied_trajectory))
    by (apply Z.leb_le; vm_compute; reflexivity).
  split; [exact Hrun|]. split; [reflexivity|]. split; [exact Hstart|].
  exact (proj1 (bezier_position_mode_empty_trajectory probe 7000
                  (set_offboard_bezier_trajectory tracking_ctx emptied_trajectory)
                  Hrun eq_refl Hstart)).
Defined.

End MoreRuns.
